(** * Bedrock agent bridge: the response decoder and the Lambda handler

    A shallow embedding of [decodeResponse], [askQuestion] and
    [lambdaHandler] of the TypeScript handler (index.ts) and of the older
    JavaScript handler (lambda.mjs), with the JavaScript runtime functions
    they call, followed by the properties of the decoder and the handler.

    Conventions of the embedding.
    - A JavaScript string is modelled by the [string] of its UTF-8 bytes.
      Every separator, marker and pattern of the program is ASCII, so
      splitting, searching and replacing agree on both representations.
      Where the runtime reads a string by its UTF-16 code units, as Node's
      base64 decoder does, they are computed from the bytes.
    - A double quote cannot be written inside a literal here; literals that
      need one are written with an apostrophe in its place and passed
      through [dq].
    - [await] is sequencing: a rejected promise is a thrown exception. *)

From Stdlib Require Import Strings.String Strings.Ascii Lists.List Bool.Bool.
From Stdlib Require Import Arith.PeanoNat NArith.NArith ZArith.ZArith Lia.
From Stdlib Require Import Numbers.DecimalString Numbers.DecimalNat.
Import ListNotations.
Local Open Scope string_scope.

(** ** Exceptions and results *)

(** A thrown value: an [Error] object, of which the program reads only
    [message], or any other value, of which it reads only [String(value)]. *)
Inductive exn : Type :=
| ErrorObj (message : string)
| NonError (shown : string).

Inductive result (A : Type) : Type :=
| Return (a : A)
| Throw (e : exn).
Arguments Return {A} a.
Arguments Throw {A} e.

Definition bind {A B : Type} (m : result A) (k : A -> result B) : result B :=
  match m with
  | Return a => k a
  | Throw e => Throw e
  end.

Notation "x <- m ;; k" := (bind m (fun x => k))
  (at level 61, m at next level, right associativity).

(** [err instanceof Error ? err.message : String(err)] *)
Definition errorMessageOf (e : exn) : string :=
  match e with
  | ErrorObj message => message
  | NonError shown => shown
  end.

(** ** The JavaScript runtime functions the program calls *)
Module Js.

Definition quote : ascii := ascii_of_nat 34.
Definition apostrophe : ascii := ascii_of_nat 39.

(** Writes the double quotes of a literal: every apostrophe becomes one. *)
Fixpoint dq (s : string) : string :=
  match s with
  | EmptyString => EmptyString
  | String c s' => String (if Ascii.eqb c apostrophe then quote else c) (dq s')
  end.

(** [Array.prototype.push] on the array modelled as a list. *)
Definition push {A : Type} (arr : list A) (x : A) : list A := arr ++ [x].

(** [s.includes(sub)] *)
Fixpoint includes (s sub : string) : bool :=
  prefix sub s ||
  match s with
  | EmptyString => false
  | String _ s' => includes s' sub
  end.

(** [s.indexOf(sub)]; JavaScript's [-1] is [None]. *)
Fixpoint indexOf (s sub : string) : option nat :=
  if prefix sub s then Some 0
  else match s with
       | EmptyString => None
       | String _ s' => option_map S (indexOf s' sub)
       end.

(** [s.substring(start)] *)
Fixpoint substringFrom (s : string) (start : nat) : string :=
  match start, s with
  | S n, String _ s' => substringFrom s' n
  | _, _ => s
  end.

(** [s.substring(0, stop)] *)
Fixpoint substringTo (s : string) (stop : nat) : string :=
  match stop, s with
  | S n, String c s' => String c (substringTo s' n)
  | _, _ => EmptyString
  end.

(** The scan of [s.split(sep)] for a non-empty [sep]: the piece that is
    open at the head of [s] and the pieces after it.  [skip] counts the
    characters of a separator just matched that are still to be passed. *)
Fixpoint split_go (sep : string) (skip : nat) (s : string) : string * list string :=
  match s with
  | EmptyString => (EmptyString, [])
  | String c s' =>
      match skip with
      | S k => split_go sep k s'
      | O =>
          if prefix sep s
          then (EmptyString,
                let (p, ps) := split_go sep (String.length sep - 1) s' in p :: ps)
          else let (p, ps) := split_go sep 0 s' in (String c p, ps)
      end
  end.

Fixpoint chars (s : string) : list string :=
  match s with
  | EmptyString => []
  | String c s' => String c EmptyString :: chars s'
  end.

(** [s.split(sep)] *)
Definition split (s sep : string) : list string :=
  match sep with
  | EmptyString => chars s
  | _ => let (p, ps) := split_go sep 0 s in p :: ps
  end.

(** The scan of [s.replace(/pat/g, rep)] for a literal non-empty [pat]:
    matches are taken left to right and the text put in is not scanned
    again. *)
Fixpoint replace_go (pat rep : string) (skip : nat) (s : string) : string :=
  match s with
  | EmptyString => EmptyString
  | String c s' =>
      match skip with
      | S k => replace_go pat rep k s'
      | O =>
          if prefix pat s
          then rep ++ replace_go pat rep (String.length pat - 1) s'
          else String c (replace_go pat rep 0 s')
      end
  end.

(** [s.replace(/pat/g, rep)], [pat] a literal without regular-expression
    operators. *)
Definition replaceAll (s pat rep : string) : string :=
  replace_go pat rep 0 s.

(** [arr.join(sep)] *)
Definition join (arr : list string) (sep : string) : string :=
  String.concat sep arr.

(** The decimal text of a number in a template literal. *)
Definition numberToString (n : nat) : string :=
  NilEmpty.string_of_uint (Nat.to_uint n).

(** *** [Buffer.from(s, "base64")] and [buf.toString("utf-8")] *)

Definition between (lo n hi : N) : bool := ((lo <=? n) && (n <=? hi))%N.

(** The value of a base64 digit; Node reads the standard and the URL-safe
    alphabet alike. *)
Definition unbase64 (c : ascii) : option N :=
  let n := N_of_ascii c in
  if between 65 n 90 then Some (n - 65)%N
  else if between 97 n 122 then Some (n - 71)%N
  else if between 48 n 57 then Some (n + 4)%N
  else if ((n =? 43) || (n =? 45))%N then Some 62%N
  else if ((n =? 47) || (n =? 95))%N then Some 63%N
  else None.

(** The six bits of a continuation byte of UTF-8. *)
Definition utf8Tail (c : ascii) : option N :=
  let n := N_of_ascii c in
  if between 128 n 191 then Some (n - 128)%N else None.

(** The UTF-16 code units of a code point: itself up to U+FFFF, the two
    surrogates of its pair above. *)
Definition utf16Encode (cp : N) : list N :=
  if (cp <? 65536)%N then [cp]
  else [55296 + (cp - 65536) / 1024; 56320 + (cp - 65536) mod 1024]%N.

(** The UTF-16 code units of a text, read off the UTF-8 bytes that hold it
    here; a lone surrogate is held by the three bytes its value gives.  A
    byte that begins no character is part of no text, and is passed over. *)
Fixpoint codeUnits (s : string) : list N :=
  match s with
  | EmptyString => []
  | String c1 s1 =>
      let b1 := N_of_ascii c1 in
      let passed := codeUnits s1 in
      if (b1 <? 128)%N then b1 :: codeUnits s1
      else
        match s1 with
        | String c2 s2 =>
            match utf8Tail c2 with
            | Some t2 =>
                if between 194 b1 223 then ((b1 - 192) * 64 + t2)%N :: codeUnits s2
                else
                  match s2 with
                  | String c3 s3 =>
                      match utf8Tail c3 with
                      | Some t3 =>
                          let cp3 := ((b1 - 224) * 4096 + t2 * 64 + t3)%N in
                          if between 224 b1 239 && (2048 <=? cp3)%N
                          then cp3 :: codeUnits s3
                          else
                            match s3 with
                            | String c4 s4 =>
                                match utf8Tail c4 with
                                | Some t4 =>
                                    let cp4 :=
                                      ((b1 - 240) * 262144 + t2 * 4096 + t3 * 64 + t4)%N in
                                    if between 240 b1 244 && between 65536 cp4 1114111
                                    then utf16Encode cp4 ++ codeUnits s4
                                    else passed
                                | None => passed
                                end
                            | EmptyString => passed
                            end
                      | None => passed
                      end
                  | EmptyString => passed
                  end
            | None => passed
            end
        | EmptyString => passed
        end
  end.

(** Node's decoder takes the text by its code units and reads of each the
    low byte only: U+0141 counts as the digit A, U+013D as [=]. *)
Definition lowBytes (s : string) : string :=
  string_of_list_ascii (map (fun u => ascii_of_N (u mod 256)) (codeUnits s)).

(** Over these bytes, the decoder passes over every one that is no base64
    digit and stops at the first [=]. *)
Fixpoint sextetsOfBytes (s : string) : list N :=
  match s with
  | EmptyString => []
  | String c s' =>
      if Ascii.eqb c "=" then []
      else match unbase64 c with
           | Some v => v :: sextetsOfBytes s'
           | None => sextetsOfBytes s'
           end
  end.

(** The digits Node's decoder reads in a text. *)
Definition sextets (s : string) : list N := sextetsOfBytes (lowBytes s).

(** Four digits give three bytes; a last group of three gives two bytes, of
    two gives one, and a single left-over digit gives none. *)
Fixpoint bytesOfSextets (l : list N) : list N :=
  match l with
  | a :: b :: c :: d :: l' =>
      (a * 4 + b / 16 :: (b mod 16) * 16 + c / 4 :: (c mod 4) * 64 + d
         :: bytesOfSextets l')%N
  | [a; b; c] => [a * 4 + b / 16; (b mod 16) * 16 + c / 4]%N
  | [a; b] => [a * 4 + b / 16]%N
  | _ => []
  end.

(** [Buffer.from(s, "base64")]: the bytes of the buffer.  The call is under
    a [try] in the program, so its type allows for an exception; Node never
    throws one for a string. *)
Definition Buffer_from_base64 (s : string) : result (list N) :=
  Return (bytesOfSextets (sextets s)).

(** U+FFFD, which replaces every ill-formed byte sequence. *)
Definition replacementChar : string :=
  String (ascii_of_N 239) (String (ascii_of_N 191) (String (ascii_of_N 189) EmptyString)).

(** For a lead byte: the number of continuation bytes and the range of the
    first of them. *)
Definition utf8Lead (b : N) : option (nat * N * N) :=
  if between 194 b 223 then Some (1, 128%N, 191%N)
  else if (b =? 224)%N then Some (2, 160%N, 191%N)
  else if between 225 b 236 then Some (2, 128%N, 191%N)
  else if (b =? 237)%N then Some (2, 128%N, 159%N)
  else if between 238 b 239 then Some (2, 128%N, 191%N)
  else if (b =? 240)%N then Some (3, 144%N, 191%N)
  else if between 241 b 243 then Some (3, 128%N, 191%N)
  else if (b =? 244)%N then Some (3, 128%N, 143%N)
  else None.

(** The UTF-8 decoder: [need] continuation bytes are awaited, the next one
    within [lo..hi]; [pend] holds the bytes of the sequence read so far. *)
Fixpoint utf8_go (need : nat) (lo hi : N) (pend : string) (bs : list N) : string :=
  match bs with
  | [] => match need with O => EmptyString | S _ => replacementChar end
  | b :: bs' =>
      let start (_ : unit) :=
        if (b <? 128)%N then String (ascii_of_N b) (utf8_go 0 0 0 EmptyString bs')
        else match utf8Lead b with
             | Some (n, l, h) => utf8_go n l h (String (ascii_of_N b) EmptyString) bs'
             | None => replacementChar ++ utf8_go 0 0 0 EmptyString bs'
             end in
      match need with
      | O => start tt
      | S k =>
          if between lo b hi then
            match k with
            | O => pend ++ String (ascii_of_N b) (utf8_go 0 0 0 EmptyString bs')
            | S _ => utf8_go k 128 191 (pend ++ String (ascii_of_N b) EmptyString) bs'
            end
          else replacementChar ++ start tt
      end
  end.

(** [buf.toString("utf-8")] *)
Definition Buffer_toString_utf8 (buf : list N) : result string :=
  Return (utf8_go 0 0 0 EmptyString buf).

(** The text [Buffer.from(s, "base64").toString("utf-8")] evaluates to. *)
Definition base64Text (s : string) : string :=
  utf8_go 0 0 0 EmptyString (bytesOfSextets (sextets s)).

(** *** JSON values, [JSON.stringify] *)

(** A number is kept as its decimal reading: sign, digits with the point
    dropped, and the power of ten the digits are scaled by. *)
#[warnings="-register-all"]
Inductive json : Type :=
| JNull
| JBool (b : bool)
| JNum (negative : bool) (digits : N) (exp10 : Z)
| JStr (s : string)
| JArr (elems : list json)
| JObj (members : list (string * json)).

Definition backslash : ascii := ascii_of_nat 92.

Definition hexDigit (n : N) : ascii :=
  if (n <? 10)%N then ascii_of_N (48 + n) else ascii_of_N (87 + n).

(** [\uXXXX] for a code unit. *)
Definition unicodeEscape (u : N) : string :=
  String backslash
    (String "u"
       (String (hexDigit (u / 4096))
          (String (hexDigit ((u / 256) mod 16))
             (String (hexDigit ((u / 16) mod 16))
                (String (hexDigit (u mod 16)) EmptyString))))).

(** The characters of a quoted JSON string.  A lone surrogate, which the
    byte model holds as the three bytes [ED A0..BF xx], is written as an
    escape; so is every control character. *)
Fixpoint quoteJSON_go (s : string) : string :=
  match s with
  | EmptyString => EmptyString
  | String c s' =>
      let n := N_of_ascii c in
      let plain (_ : unit) :=
        if (n =? 34)%N then String backslash (String quote (quoteJSON_go s'))
        else if (n =? 92)%N then String backslash (String backslash (quoteJSON_go s'))
        else if (n =? 8)%N then String backslash (String "b" (quoteJSON_go s'))
        else if (n =? 12)%N then String backslash (String "f" (quoteJSON_go s'))
        else if (n =? 10)%N then String backslash (String "n" (quoteJSON_go s'))
        else if (n =? 13)%N then String backslash (String "r" (quoteJSON_go s'))
        else if (n =? 9)%N then String backslash (String "t" (quoteJSON_go s'))
        else if (n <? 32)%N then unicodeEscape n ++ quoteJSON_go s'
        else String c (quoteJSON_go s') in
      match s' with
      | String c2 (String c3 s3) =>
          if ((n =? 237) && between 160 (N_of_ascii c2) 191)%N
          then unicodeEscape (53248 + (N_of_ascii c2 - 128) * 64 + (N_of_ascii c3 - 128))
                 ++ quoteJSON_go s3
          else plain tt
      | _ => plain tt
      end
  end.

(** [JSON.stringify(s)] for a string. *)
Definition stringifyString (s : string) : string :=
  String quote (quoteJSON_go s ++ String quote EmptyString).

(** [JSON.stringify(b)] for a boolean. *)
Definition stringifyBool (b : bool) : string := if b then "true" else "false".

(** [JSON.stringify(arr)] for an array of strings. *)
Definition stringifyStrings (arr : list string) : string :=
  "[" ++ join (map stringifyString arr) "," ++ "]".

(** [JSON.stringify(obj)] for an object given by its properties in order,
    each with its value already stringified. *)
Definition stringifyObject (props : list (string * string)) : string :=
  "{" ++ join (map (fun kv => stringifyString (fst kv) ++ ":" ++ snd kv) props) "," ++ "}".

(** *** [JSON.parse] *)

(** The lexical elements of a JSON text.  Numbers and the literals [true],
    [false] and [null] are read as one scalar. *)
Inductive token : Type :=
| TLBrace | TRBrace | TLBracket | TRBracket | TColon | TComma
| TString (s : string)
| TScalar (v : json).

(** The UTF-8 bytes of a code point; a surrogate code unit takes the three
    bytes its value gives. *)
Definition utf8Encode (cp : N) : string :=
  if (cp <? 128)%N then String (ascii_of_N cp) EmptyString
  else if (cp <? 2048)%N then
    String (ascii_of_N (192 + cp / 64))
      (String (ascii_of_N (128 + cp mod 64)) EmptyString)
  else if (cp <? 65536)%N then
    String (ascii_of_N (224 + cp / 4096))
      (String (ascii_of_N (128 + (cp / 64) mod 64))
         (String (ascii_of_N (128 + cp mod 64)) EmptyString))
  else
    String (ascii_of_N (240 + cp / 262144))
      (String (ascii_of_N (128 + (cp / 4096) mod 64))
         (String (ascii_of_N (128 + (cp / 64) mod 64))
            (String (ascii_of_N (128 + cp mod 64)) EmptyString))).

(** The text read so far of a string literal, with the high surrogate of an
    escape held back until it is known whether a low one follows it. *)
Definition flush (acc : string) (hi : option N) : string :=
  match hi with
  | Some h => acc ++ utf8Encode h
  | None => acc
  end.

(** A [\uXXXX] escape of value [u] read after [acc] and [hi]. *)
Definition addCodeUnit (acc : string) (hi : option N) (u : N) : string * option N :=
  match hi with
  | Some h =>
      if between 56320 u 57343
      then (acc ++ utf8Encode (65536 + (h - 55296) * 1024 + (u - 56320)), None)
      else if between 55296 u 56319 then (acc ++ utf8Encode h, Some u)
      else (acc ++ utf8Encode h ++ utf8Encode u, None)
  | None =>
      if between 55296 u 56319 then (acc, Some u)
      else (acc ++ utf8Encode u, None)
  end.

Definition hexValue (c : ascii) : option N :=
  let n := N_of_ascii c in
  if between 48 n 57 then Some (n - 48)%N
  else if between 97 n 102 then Some (n - 87)%N
  else if between 65 n 70 then Some (n - 55)%N
  else None.

(** The states of the number grammar: an optional minus; a zero, or a digit
    from 1 to 9 and any digits; optionally a point and one digit or more;
    optionally e or E, an optional sign, and one digit or more. *)
Inductive numState : Type :=
| NStart | NMinus | NZero | NInt | NPoint | NFrac | NExpMark | NExpSign | NExp.

Definition digitValue (c : ascii) : option N :=
  let n := N_of_ascii c in
  if between 48 n 57 then Some (n - 48)%N else None.

(** Reads a number: [neg] and [mant] are its sign and digits, [scale] the
    count of digits after the point, [eneg] and [e] the exponent. *)
Fixpoint scanNumber (st : numState) (neg : bool) (mant : N) (scale : Z)
    (eneg : bool) (e : N) (s : string) : option json :=
  match s with
  | EmptyString =>
      match st with
      | NZero | NInt | NFrac | NExp =>
          Some (JNum neg mant ((if eneg then - Z.of_N e else Z.of_N e) - scale))
      | _ => None
      end
  | String c s' =>
      match digitValue c with
      | Some d =>
          match st with
          | NStart | NMinus =>
              scanNumber (if (d =? 0)%N then NZero else NInt) neg d scale eneg e s'
          | NZero => None
          | NInt => scanNumber NInt neg (mant * 10 + d) scale eneg e s'
          | NPoint | NFrac => scanNumber NFrac neg (mant * 10 + d) (scale + 1) eneg e s'
          | NExpMark | NExpSign | NExp => scanNumber NExp neg mant scale eneg (e * 10 + d) s'
          end
      | None =>
          if Ascii.eqb c "-" then
            match st with
            | NStart => scanNumber NMinus true mant scale eneg e s'
            | NExpMark => scanNumber NExpSign neg mant scale true e s'
            | _ => None
            end
          else if Ascii.eqb c "+" then
            match st with
            | NExpMark => scanNumber NExpSign neg mant scale eneg e s'
            | _ => None
            end
          else if Ascii.eqb c "." then
            match st with
            | NZero | NInt => scanNumber NPoint neg mant scale eneg e s'
            | _ => None
            end
          else if Ascii.eqb c "e" || Ascii.eqb c "E" then
            match st with
            | NZero | NInt | NFrac => scanNumber NExpMark neg mant scale eneg e s'
            | _ => None
            end
          else None
      end
  end.

(** A run of letters, digits, signs and points is one scalar or an error:
    no two values stand side by side in a JSON text. *)
Definition scalarOfWord (w : string) : option json :=
  if String.eqb w "true" then Some (JBool true)
  else if String.eqb w "false" then Some (JBool false)
  else if String.eqb w "null" then Some JNull
  else scanNumber NStart false 0 0 false 0 w.

Definition isWordChar (c : ascii) : bool :=
  let n := N_of_ascii c in
  between 48 n 57 || between 97 n 122 || between 65 n 90
  || (n =? 43)%N || (n =? 45)%N || (n =? 46)%N.

Definition isWhitespace (c : ascii) : bool :=
  let n := N_of_ascii c in
  ((n =? 32) || (n =? 9) || (n =? 10) || (n =? 13))%N.

Inductive lexState : Type :=
| LTop
| LWord (w : string)
| LStr (acc : string) (hi : option N)
| LEsc (acc : string) (hi : option N)
| LHex (acc : string) (hi : option N) (todo : nat) (u : N).

(** A character read between tokens. *)
Definition lexTop (c : ascii) : option (lexState * list token) :=
  if isWhitespace c then Some (LTop, [])
  else if Ascii.eqb c quote then Some (LStr EmptyString None, [])
  else if Ascii.eqb c "{" then Some (LTop, [TLBrace])
  else if Ascii.eqb c "}" then Some (LTop, [TRBrace])
  else if Ascii.eqb c "[" then Some (LTop, [TLBracket])
  else if Ascii.eqb c "]" then Some (LTop, [TRBracket])
  else if Ascii.eqb c ":" then Some (LTop, [TColon])
  else if Ascii.eqb c "," then Some (LTop, [TComma])
  else if isWordChar c then Some (LWord (String c EmptyString), [])
  else None.

(** The character an escape letter stands for. *)
Definition escapeChar (c : ascii) : option ascii :=
  if Ascii.eqb c quote then Some quote
  else if Ascii.eqb c backslash then Some backslash
  else if Ascii.eqb c "/" then Some "/"%char
  else if Ascii.eqb c "b" then Some (ascii_of_nat 8)
  else if Ascii.eqb c "f" then Some (ascii_of_nat 12)
  else if Ascii.eqb c "n" then Some (ascii_of_nat 10)
  else if Ascii.eqb c "r" then Some (ascii_of_nat 13)
  else if Ascii.eqb c "t" then Some (ascii_of_nat 9)
  else None.

(** One character of the text: the next state and the tokens completed,
    or [None] at a character the grammar does not allow. *)
Definition lexStep (st : lexState) (c : ascii) : option (lexState * list token) :=
  match st with
  | LTop => lexTop c
  | LWord w =>
      if isWordChar c then Some (LWord (w ++ String c EmptyString), [])
      else match scalarOfWord w, lexTop c with
           | Some v, Some (st', toks) => Some (st', TScalar v :: toks)
           | _, _ => None
           end
  | LStr acc hi =>
      if Ascii.eqb c quote then Some (LTop, [TString (flush acc hi)])
      else if Ascii.eqb c backslash then Some (LEsc acc hi, [])
      else if (N_of_ascii c <? 32)%N then None
      else Some (LStr (flush acc hi ++ String c EmptyString) None, [])
  | LEsc acc hi =>
      if Ascii.eqb c "u" then Some (LHex acc hi 4 0%N, [])
      else match escapeChar c with
           | Some x => Some (LStr (flush acc hi ++ String x EmptyString) None, [])
           | None => None
           end
  | LHex acc hi todo u =>
      match hexValue c with
      | Some d =>
          match todo with
          | S (S k) => Some (LHex acc hi (S k) (u * 16 + d)%N, [])
          | _ => let (acc', hi') := addCodeUnit acc hi (u * 16 + d)%N in
                 Some (LStr acc' hi', [])
          end
      | None => None
      end
  end.

Fixpoint lex (st : lexState) (s : string) : option (list token) :=
  match s with
  | EmptyString =>
      match st with
      | LTop => Some []
      | LWord w => option_map (fun v => [TScalar v]) (scalarOfWord w)
      | _ => None
      end
  | String c s' =>
      match lexStep st c with
      | Some (st', toks) => option_map (app toks) (lex st' s')
      | None => None
      end
  end.

(** A container that is open: an array with the elements read, or an object
    with the members read and the key whose value is awaited.  Elements and
    members are held last first. *)
Inductive frame : Type :=
| FArr (elems : list json)
| FObj (members : list (string * json)) (key : string).

Inductive parseState : Type :=
| PValue (stack : list frame)
| PArrayOpen (stack : list frame)
| PObjectOpen (stack : list frame)
| PArrayNext (elems : list json) (stack : list frame)
| PObjectNext (members : list (string * json)) (stack : list frame)
| PKey (members : list (string * json)) (stack : list frame)
| PColon (members : list (string * json)) (key : string) (stack : list frame)
| PDone (v : json).

(** A value is complete: it goes to the innermost open container. *)
Definition attach (v : json) (stack : list frame) : parseState :=
  match stack with
  | [] => PDone v
  | FArr elems :: stack' => PArrayNext (v :: elems) stack'
  | FObj members key :: stack' => PObjectNext ((key, v) :: members) stack'
  end.

Definition parseValueToken (t : token) (stack : list frame) : option parseState :=
  match t with
  | TScalar v => Some (attach v stack)
  | TString s => Some (attach (JStr s) stack)
  | TLBracket => Some (PArrayOpen stack)
  | TLBrace => Some (PObjectOpen stack)
  | _ => None
  end.

Definition parseStep (p : parseState) (t : token) : option parseState :=
  match p with
  | PValue stack => parseValueToken t stack
  | PArrayOpen stack =>
      match t with
      | TRBracket => Some (attach (JArr []) stack)
      | _ => parseValueToken t (FArr [] :: stack)
      end
  | PObjectOpen stack =>
      match t with
      | TRBrace => Some (attach (JObj []) stack)
      | TString key => Some (PColon [] key stack)
      | _ => None
      end
  | PArrayNext elems stack =>
      match t with
      | TComma => Some (PValue (FArr elems :: stack))
      | TRBracket => Some (attach (JArr (rev elems)) stack)
      | _ => None
      end
  | PObjectNext members stack =>
      match t with
      | TComma => Some (PKey members stack)
      | TRBrace => Some (attach (JObj (rev members)) stack)
      | _ => None
      end
  | PKey members stack =>
      match t with
      | TString key => Some (PColon members key stack)
      | _ => None
      end
  | PColon members key stack =>
      match t with
      | TColon => Some (PValue (FObj members key :: stack))
      | _ => None
      end
  | PDone _ => None
  end.

Fixpoint parseTokens (p : parseState) (ts : list token) : option json :=
  match ts with
  | [] => match p with PDone v => Some v | _ => None end
  | t :: ts' =>
      match parseStep p t with
      | Some p' => parseTokens p' ts'
      | None => None
      end
  end.

(** [JSON.parse(text)]; [None] is the [SyntaxError] it throws. *)
Definition JSON_parse (text : string) : option json :=
  match lex LTop text with
  | Some ts => parseTokens (PValue []) ts
  | None => None
  end.

(** *** Values at run time *)

(** [obj[key]] for a key no prototype defines; [None] is [undefined].  Of
    two members with one key the later is kept. *)
Fixpoint lookupMember (members : list (string * json)) (key : string) : option json :=
  match members with
  | [] => None
  | (k, v) :: rest =>
      match lookupMember rest key with
      | Some v' => Some v'
      | None => if String.eqb k key then Some v else None
      end
  end.

(** A number that reads as zero: no digit but 0, or a value at or below
    2^-1075, which rounds to zero. *)
Definition numberIsZero (digits : N) (exp10 : Z) : bool :=
  (digits =? 0)%N
  || ((exp10 <? 0)%Z && (Z.of_N digits * 2 ^ 1075 <=? 10 ^ (- exp10))%Z).

(** [ToBoolean]; [None] is [undefined]. *)
Definition truthy (v : option json) : bool :=
  match v with
  | None | Some JNull => false
  | Some (JBool b) => b
  | Some (JNum _ digits exp10) => negb (numberIsZero digits exp10)
  | Some (JStr s) => negb (String.eqb s EmptyString)
  | Some (JArr _) | Some (JObj _) => true
  end.

End Js.

(** ** The world outside the program *)

(** An error the engine raises by itself.  The wording of its message
    differs between engines and versions, so it is left open. *)
Inductive engineError : Type :=
| SyntaxErrorIn (text : string)
| PropertyOfNull (key : string)
| NotAFunction (callee : string).

(** A [Response] of the HTTP client: the program only awaits its
    [text()]. *)
Record Response : Type := { text : result string }.

(** The response whose text is [body]. *)
Definition bodyResponse (body : string) : Response := {| text := Return body |}.

(** The arguments of one call of [sigv4Request]. *)
Record SigV4Call : Type := {
  url : string;
  method : string;
  body : option string;
  params : option (list (string * string));
  headers : option (list (string * string));
  service : string;
  region : string
}.

(** Signing, the credentials and the network are collaborators of the
    program: the world answers each call, and keeps the calls issued. *)
Record World : Type := {
  network : SigV4Call -> result Response;
  issued : list SigV4Call
}.

(** The envelope [lambdaHandler] returns. *)
Record LambdaResponse : Type := { statusCode : nat; responseBody : string }.

(** [endSession?: boolean | string] of a [LambdaEvent]. *)
Inductive endSessionField : Type :=
| Absent
| Boolean (b : bool)
| Text (s : string).

Record LambdaEvent : Type := {
  sessionId : string;
  question : string;
  endSession : endSessionField
}.

(** ** index.ts *)
Module Index.
Import Js.

Definition agentId : string := "RWRMVZLC8A".
Definition agentAliasId : string := "JTKGKFHPKP".
Definition theRegion : string := "ca-central-1".

Definition newline : string := String (ascii_of_nat 10) EmptyString.

Section Program.

Variable engineMessage : engineError -> string.

Definition raise {A : Type} (e : engineError) : result A :=
  Throw (ErrorObj (engineMessage e)).

(** [sigv4Request(...)]: the request goes out and the world answers. *)
Definition sigv4Request (call : SigV4Call) (w : World) : result Response * World :=
  (network w call, {| network := network w; issued := push (issued w) call |}).

(** [JSON.parse(text)] with its exception. *)
Definition parseJSON (text : string) : result json :=
  match JSON_parse text with
  | Some v => Return v
  | None => raise (SyntaxErrorIn text)
  end.

(** [parsed[key]]; [None] is [undefined].  Reading a property of [null]
    throws; a key such as "text" is no property of a string, a number, a
    boolean or an array. *)
Definition getProperty (parsed : json) (key : string) : result (option json) :=
  match parsed with
  | JNull => raise (PropertyOfNull key)
  | JObj members => Return (lookupMember members key)
  | _ => Return None
  end.

(** [value || ""] *)
Definition orEmpty (value : option json) : json :=
  match value with
  | Some v => if truthy value then v else JStr EmptyString
  | None => JStr EmptyString
  end.

(** [finalResponse.replace(/pat/g, rep)]: only a string has the method. *)
Definition callReplace (finalResponse : json) (pat rep : string) : result string :=
  match finalResponse with
  | JStr s => Return (replaceAll s pat rep)
  | _ => raise (NotAFunction "finalResponse.replace")
  end.

(** The body of the loop over the parts, for the part at [idx]. *)
Definition processPart (capturedOutput : list string) (idx : nat) (part : string)
    : list string :=
  if includes part "bytes" then
    let parts := split part (dq "'") in
    if (3 <? List.length parts)%nat then
      let encodedLastResponse := nth 3 parts EmptyString in
      match (decodedBuffer <- Buffer_from_base64 encodedLastResponse ;;
             Buffer_toString_utf8 decodedBuffer) with
      | Return finalResponsePart => push capturedOutput finalResponsePart
      | Throw err =>
          push capturedOutput
            ("Error decoding base64 at index " ++ numberToString idx ++ ": "
               ++ errorMessageOf err)
      end
    else capturedOutput
  else
    push (push capturedOutput ("no bytes at index " ++ numberToString idx)) part.

(** [for (let idx = 0; idx < splitResponse.length; idx++)], from [idx] on;
    [rest] holds the parts from [idx] to the last. *)
Fixpoint processParts (capturedOutput : list string) (idx : nat) (rest : list string)
    : list string :=
  match rest with
  | [] => capturedOutput
  | part :: rest' => processParts (processPart capturedOutput idx part) (S idx) rest'
  end.

Definition searchString : string := dq "finalResponse':".

(** The branch taken when the last part has no "bytes": the marker is
    looked for in the whole text. *)
Definition fromMarker (capturedOutput : list string) (responseText : string)
    : list string * json :=
  match indexOf responseText searchString with
  | Some startIdx =>
      let part1 := substringFrom responseText (startIdx + String.length searchString) in
      match indexOf part1 (dq "'}") with
      | Some endIdx =>
          let part2 := substringTo part1 (endIdx + 2) in
          match (parsed <- parseJSON part2 ;;
                 value <- getProperty parsed "text" ;;
                 Return (orEmpty value)) with
          | Return finalResponse => (capturedOutput, finalResponse)
          | Throw err =>
              (push capturedOutput ("Error parsing JSON: " ++ errorMessageOf err),
               JStr EmptyString)
          end
      | None => (capturedOutput, JStr EmptyString)
      end
  | None => (capturedOutput, JStr EmptyString)
  end.

(** The branch taken when the last part has "bytes". *)
Definition fromLastPart (capturedOutput : list string) (lastResponse : string)
    : result (list string * json) :=
  let parts := split lastResponse (dq "'") in
  if (3 <? List.length parts)%nat then
    let encodedLastResponse := nth 3 parts EmptyString in
    decodedBuffer <- Buffer_from_base64 encodedLastResponse ;;
    finalResponse <- Buffer_toString_utf8 decodedBuffer ;;
    Return (capturedOutput, JStr finalResponse)
  else Return (capturedOutput, JStr EmptyString).

(** The three replacements made before the return. *)
Definition cleanUp (finalResponse : json) : result string :=
  finalResponse <- callReplace finalResponse (dq "'") EmptyString ;;
  finalResponse <- callReplace (JStr finalResponse) "{input:{value:" EmptyString ;;
  callReplace (JStr finalResponse) ",source:null}}" EmptyString.

(** [decodeResponse] up to its [return]: the array [capturedOutput] and
    [llmResponse]. *)
Definition decodeOutput (response : Response) : result (list string * string) :=
  responseText <- text response ;;
  let capturedOutput := push [] ("Decoded response: " ++ responseText) in
  let splitResponse := split responseText ":message-type" in
  let capturedOutput :=
    push capturedOutput ("Split Response: " ++ stringifyStrings splitResponse) in
  let capturedOutput :=
    push capturedOutput
      ("length of split: " ++ numberToString (List.length splitResponse)) in
  let capturedOutput := processParts capturedOutput 0 splitResponse in
  let lastResponse := nth (List.length splitResponse - 1) splitResponse EmptyString in
  let capturedOutput := push capturedOutput ("Lst Response: " ++ lastResponse) in
  state <-
    (if includes lastResponse "bytes"
     then fromLastPart (push capturedOutput "Bytes in last response") lastResponse
     else Return (fromMarker (push capturedOutput "no bytes in last response")
                    responseText)) ;;
  let (capturedOutput, finalResponse) := state in
  llmResponse <- cleanUp finalResponse ;;
  Return (capturedOutput, llmResponse).

(** [decodeResponse(response)]: the trace and the answer. *)
Definition decodeResponse (response : Response) : result (string * string) :=
  out <- decodeOutput response ;;
  Return (join (fst out) newline, snd out).

(** [askQuestion(question, url, endSession)] *)
Definition askQuestion (question url : string) (endSession : bool) (w : World)
    : result (string * string) * World :=
  let myobj :=
    [("inputText", stringifyString question);
     ("enableTrace", stringifyBool true);
     ("endSession", stringifyBool endSession)] in
  let body := stringifyObject myobj in
  let (response, w) :=
    sigv4Request
      {| url := url; method := "POST"; body := Some body; params := None;
         headers := Some [("content-type", "application/json");
                          ("accept", "application/json")];
         service := "bedrock"; region := theRegion |} w in
  (response <- response ;; decodeResponse response, w).

(** [lambdaHandler(event, _context)]; what it writes to the console is
    left out. *)
Definition lambdaHandler (event : LambdaEvent) (w : World) : LambdaResponse * World :=
  let rawEndSession := endSession event in
  let endSession :=
    match rawEndSession with
    | Boolean true => true
    | Text s => String.eqb s "true"
    | _ => false
    end in
  let url :=
    "https://bedrock-agent-runtime." ++ theRegion ++ ".amazonaws.com/agents/"
      ++ agentId ++ "/agentAliases/" ++ agentAliasId ++ "/sessions/"
      ++ sessionId event ++ "/text" in
  match askQuestion (question event) url endSession w with
  | (Return (responseOutput, traceData), w) =>
      ({| statusCode := 200;
          responseBody :=
            stringifyObject [("response", stringifyString responseOutput);
                             ("trace_data", stringifyString traceData)] |}, w)
  | (Throw error, w) =>
      ({| statusCode := 500;
          responseBody :=
            stringifyObject [("error", stringifyString (errorMessageOf error))] |}, w)
  end.

End Program.
End Index.

(** ** lambda.mjs *)
Module LambdaMjs.
Import Js.

Definition agentId : string := "RWRMVZLC8A".
Definition agentAliasId : string := "JTKGKFHPKP".
Definition theRegion : string := "ca-central-1".

(** The digits of the package base-64, which reads the standard alphabet
    only. *)
Definition tableIndex (c : ascii) : option N :=
  let n := N_of_ascii c in
  if between 65 n 90 then Some (n - 65)%N
  else if between 97 n 122 then Some (n - 71)%N
  else if between 48 n 57 then Some (n + 4)%N
  else if (n =? 43)%N then Some 62%N
  else if (n =? 47)%N then Some 63%N
  else None.

(** [input.replace(/[\t\n\f\r ]/g, '')] *)
Fixpoint dropSpaces (s : string) : string :=
  match s with
  | EmptyString => EmptyString
  | String c s' =>
      let n := N_of_ascii c in
      if ((n =? 9) || (n =? 10) || (n =? 12) || (n =? 13) || (n =? 32))%N
      then dropSpaces s'
      else String c (dropSpaces s')
  end.

(** [input.replace(/==?$/, '')] *)
Fixpoint dropPadding (s : string) : string :=
  match s with
  | EmptyString => EmptyString
  | String c s' =>
      if String.eqb s "=" || String.eqb s "==" then EmptyString
      else String c (dropPadding s')
  end.

(** The digits of [s], or [None] when a character is no digit. *)
Fixpoint digits (s : string) : option (list N) :=
  match s with
  | EmptyString => Some []
  | String c s' =>
      match tableIndex c, digits s' with
      | Some v, Some l => Some (v :: l)
      | _, _ => None
      end
  end.

(** The text of a byte string: one character for each byte. *)
Fixpoint binaryString (bs : list N) : string :=
  match bs with
  | [] => EmptyString
  | b :: bs' => utf8Encode b ++ binaryString bs'
  end.

(** [base64.decode(input)] of the package base-64, for [input] a string:
    it throws at a text that is not base64. *)
Definition base64_decode (input : string) : result string :=
  let input := dropSpaces input in
  let input := if (String.length input mod 4 =? 0)%nat then dropPadding input else input in
  match digits input with
  | Some l =>
      if (String.length input mod 4 =? 1)%nat
      then Throw (ErrorObj
             "Invalid character: the string to be decoded is not correctly encoded.")
      else Return (binaryString (bytesOfSextets l))
  | None =>
      Throw (ErrorObj
        "Invalid character: the string to be decoded is not correctly encoded.")
  end.

(** [String(arr[i])]: a missing element reads as "undefined". *)
Definition elementString (arr : list string) (i : nat) : string :=
  match nth_error arr i with
  | Some x => x
  | None => "undefined"
  end.

(** [for (let part of splitResponse)], over the parts still to come. *)
Fixpoint forParts (finalResponse : string) (rest : list string) : result string :=
  match rest with
  | [] => Return finalResponse
  | part :: rest' =>
      if includes part "bytes" then
        let encodedLastResponse := elementString (split part (dq "'")) 3 in
        decoded <- base64_decode encodedLastResponse ;;
        forParts decoded rest'
      else forParts finalResponse rest'
  end.

(** [decodeResponse(response)] *)
Definition decodeResponse (response : Response) : result string :=
  responseBody <- text response ;;
  let splitResponse := split responseBody ":message-type" in
  forParts EmptyString splitResponse.

Definition sigv4Request (call : SigV4Call) (w : World) : result Response * World :=
  (network w call, {| network := network w; issued := push (issued w) call |}).

(** [askQuestion(question, url, endSession)] *)
Definition askQuestion (question url : string) (endSession : bool) (w : World)
    : result string * World :=
  let requestBody :=
    [("inputText", stringifyString question);
     ("enableTrace", stringifyBool true);
     ("endSession", stringifyBool endSession)] in
  let (response, w) :=
    sigv4Request
      {| url := url; method := "POST"; body := Some (stringifyObject requestBody);
         params := None;
         headers := Some [("content-type", "application/json");
                          ("accept", "application/json")];
         service := "bedrock"; region := theRegion |} w in
  (response <- response ;; decodeResponse response, w).

Section MjsHandler.

(** What [JSON.stringify] writes for [error.message] when the value caught
    is no [Error]; such a value is known here by what [String] makes of it.
    Reading the property raises a [TypeError] when the value is [null] or
    [undefined]; nothing is written, which is [None], when the value has no
    [message], as a string, a number or a boolean has none. *)
Variable messageWritten : string -> result (option string).

(** [JSON.stringify({ error: error.message })]: the message is read with no
    test of what was caught, and a member that is [undefined] is left
    out. *)
Definition errorBody (error : exn) : result string :=
  written <-
    match error with
    | ErrorObj message => Return (Some (stringifyString message))
    | NonError shown => messageWritten shown
    end ;;
  Return (stringifyObject
            match written with
            | Some value => [("error", value)]
            | None => []
            end).

(** [lambdaHandler(event)]: [endSession] defaults to the string "false" and
    is compared with the string "true".  An exception raised in the [catch]
    clause rejects the handler. *)
Definition lambdaHandler (event : LambdaEvent) (w : World)
    : result LambdaResponse * World :=
  let endSession :=
    match endSession event with
    | Absent => Text "false"
    | given => given
    end in
  let url :=
    "https://bedrock-agent-runtime." ++ theRegion ++ ".amazonaws.com/agents/"
      ++ agentId ++ "/agentAliases/" ++ agentAliasId ++ "/sessions/"
      ++ sessionId event ++ "/text" in
  let isTrue := match endSession with Text s => String.eqb s "true" | _ => false end in
  match askQuestion (question event) url isTrue w with
  | (Return response, w) =>
      (Return {| statusCode := 200;
                 responseBody :=
                   stringifyObject [("response", stringifyString response)] |}, w)
  | (Throw error, w) =>
      (body <- errorBody error ;;
       Return {| statusCode := 500; responseBody := body |}, w)
  end.

End MjsHandler.

End LambdaMjs.

(** ** The words of the specification *)
Module Spec.
Import Js.

(** The segments of a body, under splitting on the marker. *)
Definition segments (body : string) : list string := split body ":message-type".

(** A payload-bearing segment contains the substring "bytes". *)
Definition payloadBearing (segment : string) : bool := includes segment "bytes".

(** The last payload-bearing segment of a body, if it has one. *)
Definition lastPayloadBearing (body : string) : option string :=
  last (map Some (filter payloadBearing (segments body))) None.

(** The base64-decoded text of a segment: that of its fourth
    quote-delimited field. *)
Definition payloadText (segment : string) : string :=
  base64Text (nth 3 (split segment (dq "'")) EmptyString).

(** The lines one segment gives the trace: its index and its text when it
    is not payload-bearing, its decoded text when it is and has a fourth
    quote-delimited field, and none otherwise. *)
Definition partLines (idx : nat) (segment : string) : list string :=
  if payloadBearing segment then
    if (3 <? List.length (split segment (dq "'")))%nat
    then [payloadText segment] else []
  else ["no bytes at index " ++ numberToString idx; segment].

(** Normalization: strip all double quotes, then remove all occurrences of
    the first noise substring, then all of the second. *)
Definition normalize (s : string) : string :=
  replaceAll
    (replaceAll (replaceAll s (dq "'") EmptyString) "{input:{value:" EmptyString)
    ",source:null}}" EmptyString.

(** Base64 as RFC 4648 writes it: digits of the standard alphabet, then at
    most two [=], a multiple of four characters in all. *)
Fixpoint paddingOnly (s : string) : bool :=
  match s with
  | EmptyString => true
  | String c s' => Ascii.eqb c "=" && paddingOnly s'
  end.

Fixpoint digitsThenPadding (s : string) : bool :=
  match s with
  | EmptyString => true
  | String c s' =>
      match LambdaMjs.tableIndex c with
      | Some _ => digitsThenPadding s'
      | None => (String.length s <=? 2)%nat && paddingOnly s
      end
  end.

Definition wellFormedBase64 (s : string) : bool :=
  (String.length s mod 4 =? 0)%nat && digitsThenPadding s.

End Spec.

(** ** An engine to evaluate with *)

(** Messages after those of V8, for the evaluation of the program at given
    inputs; that of a [SyntaxError], which V8 words by the text, is
    abridged. *)
Definition v8Message (e : engineError) : string :=
  match e with
  | SyntaxErrorIn _ => "Unexpected token in JSON"
  | PropertyOfNull key => "Cannot read properties of null (reading '" ++ key ++ "')"
  | NotAFunction callee => callee ++ " is not a function"
  end.

(** A world whose network answers every call with [response]. *)
Definition answering (response : result Response) : World :=
  {| network := fun _ => response; issued := [] |}.

(** ** app.tsx *)
Module Chat.
Import Js.

(** A message of the chat.  [content] is the input for the message of the
    user and what [trace_data] holds for that of the assistant; [None] is
    [undefined]. *)
Record Message : Type := { role : string; content : option json }.

(** The state of the component. *)
Record State : Type := {
  sessionId : string;
  isLoading : bool;
  messages : list Message;
  input : string
}.

(** The object store 'messages' of the database 'ChatHistory' in the
    browser, and the error a request of each kind ends in, if it does. *)
Record Browser : Type := {
  store : list Message;
  openError : option exn;
  addError : option exn;
  getAllError : option exn
}.

(** The handle [openDatabase] resolves with. *)
Inductive IDBDatabase : Type := ChatHistory.

(** [openDatabase()] *)
Definition openDatabase (b : Browser) : result IDBDatabase :=
  match openError b with
  | Some e => Throw e
  | None => Return ChatHistory
  end.

(** [addMessageToHistory(db, message)]: the store gives the message the
    next key. *)
Definition addMessageToHistory (db : IDBDatabase) (message : Message) (b : Browser)
    : result unit * Browser :=
  match addError b with
  | Some e => (Throw e, b)
  | None =>
      (Return tt,
       {| store := (store b ++ [message])%list; openError := openError b;
          addError := addError b; getAllError := getAllError b |})
  end.

(** [getHistory(db)]: the messages in the order of their keys. *)
Definition getHistory (db : IDBDatabase) (b : Browser) : result (list Message) :=
  match getAllError b with
  | Some e => Throw e
  | None => Return (store b)
  end.

(** [setMessages(update)] *)
Definition setMessages (update : list Message -> list Message) (st : State) : State :=
  {| sessionId := sessionId st; isLoading := isLoading st;
     messages := update (messages st); input := input st |}.

(** [setIsLoading(value)] *)
Definition setIsLoading (value : bool) (st : State) : State :=
  {| sessionId := sessionId st; isLoading := value;
     messages := messages st; input := input st |}.

(** [loadHistory()] of the effect run at mount: a rejection is handled
    nowhere and leaves the messages as they are. *)
Definition loadHistory (st : State) (b : Browser) : State :=
  match (db <- openDatabase b ;; getHistory db b) with
  | Return history => setMessages (fun _ => history) st
  | Throw _ => st
  end.

Section Component.

Variable engineMessage : engineError -> string.

(** [lambdaHandler] as imported from '@/lib/lambdaHandler'. *)
Variable lambdaHandler : LambdaEvent -> World -> LambdaResponse * World.

(** The [try] block of [onSubmit]. *)
Definition submitTry (st : State) (w : World) (b : Browser)
    : result unit * (State * World * Browser) :=
  let event := Build_LambdaEvent (sessionId st) (input st) (Boolean false) in
  let (lambdaResponse, w) := lambdaHandler event w in
  if negb (statusCode lambdaResponse =? 200)%nat then
    (Throw (ErrorObj ("API request failed with status "
                        ++ numberToString (statusCode lambdaResponse))),
     (st, w, b))
  else
    match (parsedBody <- Index.parseJSON engineMessage (responseBody lambdaResponse) ;;
           Index.getProperty engineMessage parsedBody "trace_data") with
    | Throw e => (Throw e, (st, w, b))
    | Return assistantContent =>
        let assistantMessage := {| role := "assistant"; content := assistantContent |} in
        let st := setMessages (fun prevMessages => (prevMessages ++ [assistantMessage])%list) st in
        match openDatabase b with
        | Throw e => (Throw e, (st, w, b))
        | Return db =>
            let (added, b) := addMessageToHistory db assistantMessage b in
            (added, (st, w, b))
        end
    end.

(** [onSubmit(e)]: the error caught is written to the console only. *)
Definition onSubmit (st : State) (w : World) (b : Browser) : State * World * Browser :=
  let st := setIsLoading true st in
  let newMessage := {| role := "user"; content := Some (JStr (input st)) |} in
  let st := setMessages (fun prevMessages => (prevMessages ++ [newMessage])%list) st in
  let '(st, w, b) := snd (submitTry st w b) in
  (setIsLoading false st, w, b).

End Component.
End Chat.

(** ** The chat component that calls the route *)
Module ChatFetch.
Import Js.

(** A message of the chat, with its [id]. *)
Record Message : Type := { id : string; role : string; content : option json }.

(** A record of the object store: the message as it was added, with the
    [id] it was given if it was added with one. *)
Record Stored : Type := {
  storedId : option string;
  storedRole : string;
  storedContent : option json
}.

Record Browser : Type := {
  store : list Stored;
  openError : option exn;
  addError : option exn;
  getAllError : option exn
}.

Inductive IDBDatabase : Type := ChatHistory.

(** [openDatabase()] *)
Definition openDatabase (b : Browser) : result IDBDatabase :=
  match openError b with
  | Some e => Throw e
  | None => Return ChatHistory
  end.

(** [addMessageToHistory(db, message)]: the message is stored whole, its
    [id] with it. *)
Definition addMessageToHistory (db : IDBDatabase) (message : Message) (b : Browser)
    : result unit * Browser :=
  match addError b with
  | Some e => (Throw e, b)
  | None =>
      (Return tt,
       {| store :=
            (store b ++ [{| storedId := Some (id message);
                            storedRole := role message;
                            storedContent := content message |}])%list;
          openError := openError b; addError := addError b;
          getAllError := getAllError b |})
  end.

(** [records.map((msg, index) => ({ id: index.toString(), ...msg }))], from
    [index] on: the members of [msg] are written after [id], so that an
    [id] of its own replaces the position. *)
Fixpoint messagesWithId (index : nat) (records : list Stored) : list Message :=
  match records with
  | [] => []
  | msg :: rest =>
      {| id := match storedId msg with
               | Some own => own
               | None => numberToString index
               end;
         role := storedRole msg;
         content := storedContent msg |}
        :: messagesWithId (S index) rest
  end.

(** [getHistory(db)] *)
Definition getHistory (db : IDBDatabase) (b : Browser) : result (list Message) :=
  match getAllError b with
  | Some e => Throw e
  | None => Return (messagesWithId 0 (store b))
  end.

(** [history.map((message, index) => ({ id: index.toString(), role:
    message.role, content: message.content }))], from [index] on. *)
Fixpoint mappedHistory (index : nat) (history : list Message) : list Message :=
  match history with
  | [] => []
  | message :: rest =>
      {| id := numberToString index; role := role message; content := content message |}
        :: mappedHistory (S index) rest
  end.

(** [loadHistory()] of the effect run at mount, on the messages shown: a
    rejection is handled nowhere and leaves them as they are. *)
Definition loadHistory (messages : list Message) (b : Browser) : list Message :=
  match (db <- openDatabase b ;; getHistory db b) with
  | Return history => mappedHistory 0 history
  | Throw _ => messages
  end.

End ChatFetch.

(** ** route.ts *)
Module Route.
Import Js.

(** A request, of which the handler awaits [json()] only. *)
Record NextRequest : Type := { jsonBody : result LambdaEvent }.

(** [NextResponse.json(payload, { status })] *)
Record NextResponse : Type := { status : nat; payload : json }.

Section Handler.

Variable engineMessage : engineError -> string.

(** [lambdaHandler] as imported from '@/lib/lambdaHandler'. *)
Variable lambdaHandler : LambdaEvent -> World -> LambdaResponse * World.

(** The response of the [catch] clause: [{ error: error.message }], in
    which a message that is [undefined] leaves no member. *)
Definition failure (error : exn) : NextResponse :=
  {| status := 500;
     payload :=
       JObj match error with
            | ErrorObj message => [("error", JStr message)]
            | NonError _ => []
            end |}.

(** [POST(req)] *)
Definition POST (req : NextRequest) (w : World) : NextResponse * World :=
  match jsonBody req with
  | Throw error => (failure error, w)
  | Return body =>
      let (response, w) := lambdaHandler body w in
      match Index.parseJSON engineMessage (responseBody response) with
      | Return parsed => ({| status := statusCode response; payload := parsed |}, w)
      | Throw error => (failure error, w)
      end
  end.

End Handler.
End Route.

(** ** Notions the further properties are stated with *)

(** [t] is [s] with some of its characters deleted. *)
Inductive Deleted : string -> string -> Prop :=
| DeletedNone : Deleted EmptyString EmptyString
| DeletedKeep (c : ascii) (t s : string) : Deleted t s -> Deleted (String c t) (String c s)
| DeletedDrop (c : ascii) (t s : string) : Deleted t s -> Deleted t (String c s).

(** The message of every error the package base-64 throws. *)
Definition invalidCharacter : exn :=
  ErrorObj "Invalid character: the string to be decoded is not correctly encoded.".

(** The text holds no surrogate code unit: nowhere the byte ED before a byte
    from A0 to BF.  Every text decoded from UTF-8 is such. *)
Fixpoint noSurrogate (s : string) : bool :=
  match s with
  | EmptyString => true
  | String c s' =>
      negb ((N_of_ascii c =? 237)%N
            && match s' with
               | String c2 _ => Js.between 160 (N_of_ascii c2) 191
               | EmptyString => false
               end)
      && noSurrogate s'
  end.

(** What [JSON.stringify] writes for a character that is part of no
    surrogate. *)
Definition escapeOf (c : ascii) : string :=
  let n := N_of_ascii c in
  if (n =? 34)%N then String Js.backslash (String Js.quote EmptyString)
  else if (n =? 92)%N then String Js.backslash (String Js.backslash EmptyString)
  else if (n =? 8)%N then String Js.backslash "b"
  else if (n =? 12)%N then String Js.backslash "f"
  else if (n =? 10)%N then String Js.backslash "n"
  else if (n =? 13)%N then String Js.backslash "r"
  else if (n =? 9)%N then String Js.backslash "t"
  else if (n <? 32)%N then Js.unicodeEscape n
  else String c EmptyString.

(** The same, written before the rest of the text as [quoteJSON_go] does. *)
Definition escapeBefore (c : ascii) (rest : string) : string :=
  let n := N_of_ascii c in
  if (n =? 34)%N then String Js.backslash (String Js.quote rest)
  else if (n =? 92)%N then String Js.backslash (String Js.backslash rest)
  else if (n =? 8)%N then String Js.backslash (String "b" rest)
  else if (n =? 12)%N then String Js.backslash (String "f" rest)
  else if (n =? 10)%N then String Js.backslash (String "n" rest)
  else if (n =? 13)%N then String Js.backslash (String "r" rest)
  else if (n =? 9)%N then String Js.backslash (String "t" rest)
  else if (n <? 32)%N then Js.unicodeEscape n ++ rest
  else String c rest.

(** The lexer of [JSON.parse] run over a piece of a text: the state it
    ends in and the tokens it completes. *)
Fixpoint lexRun (st : Js.lexState) (s : string) : option (Js.lexState * list Js.token) :=
  match s with
  | EmptyString => Some (st, [])
  | String c s' =>
      match Js.lexStep st c with
      | Some (st', toks) =>
          match lexRun st' s' with
          | Some (st'', toks') => Some (st'', toks ++ toks')%list
          | None => None
          end
      | None => None
      end
  end.

(** * Properties *)

(** ** Strings *)
Section StringFacts.
Import Js.

Lemma append_assoc (a b c : string) : (a ++ b) ++ c = a ++ (b ++ c).
Proof. induction a as [|x a IH]; simpl; [reflexivity | now rewrite IH]. Qed.

Lemma prefix_empty (s : string) : prefix EmptyString s = true.
Proof. destruct s; reflexivity. Qed.

Lemma prefix_append (p s : string) : prefix p (p ++ s) = true.
Proof.
  induction p as [|c p IH]; simpl.
  - apply prefix_empty.
  - destruct (ascii_dec c c) as [_|n]; [exact IH | now elim n].
Qed.

Lemma includes_cons (c : ascii) (s sub : string) :
  includes (String c s) sub = prefix sub (String c s) || includes s sub.
Proof. reflexivity. Qed.

(** A text without the pattern is left as it is. *)
Lemma replace_go_absent (pat rep s : string) :
  includes s pat = false -> replace_go pat rep 0 s = s.
Proof.
  induction s as [|c s IH]; intros H; [reflexivity|].
  rewrite includes_cons in H. apply orb_false_iff in H as [Hp Hi].
  cbn [replace_go]. rewrite Hp, (IH Hi). reflexivity.
Qed.

(** A text without the separator is one piece. *)
Lemma split_go_absent (sep s : string) :
  includes s sep = false -> split_go sep 0 s = (s, []).
Proof.
  induction s as [|c s IH]; intros H; [reflexivity|].
  rewrite includes_cons in H. apply orb_false_iff in H as [Hp Hi].
  cbn [split_go]. rewrite Hp, (IH Hi). reflexivity.
Qed.

(** Replacing by nothing brings in no character. *)
Lemma replace_go_chars (pat : string) (x : ascii) (s : string) (k : nat) :
  In x (list_ascii_of_string (replace_go pat EmptyString k s)) ->
  In x (list_ascii_of_string s).
Proof.
  revert k. induction s as [|c s IH]; intros k H; [exact H|].
  cbn [replace_go] in H. destruct k as [|k].
  - destruct (prefix pat (String c s)).
    + right. exact (IH _ H).
    + destruct H as [H|H]; [now left | right; exact (IH _ H)].
  - right. exact (IH _ H).
Qed.

Lemma replace_go_length (pat : string) (s : string) (k : nat) :
  String.length (replace_go pat EmptyString k s) <= String.length s.
Proof.
  revert k. induction s as [|c s IH]; intros k; [apply Nat.le_refl|].
  cbn [replace_go]. destruct k as [|k].
  - destruct (prefix pat (String c s)); simpl.
    + specialize (IH (String.length pat - 1)). lia.
    + specialize (IH 0). lia.
  - specialize (IH k). simpl. lia.
Qed.

(** A text with the pattern gets shorter. *)
Lemma replace_go_shorter (pat s : string) :
  pat <> EmptyString ->
  includes s pat = true ->
  String.length (replace_go pat EmptyString 0 s) < String.length s.
Proof.
  intros Hne. induction s as [|c s IH]; intros H.
  - destruct pat; [now elim Hne | discriminate H].
  - rewrite includes_cons in H. cbn [replace_go].
    destruct (prefix pat (String c s)) eqn:Hp; simpl.
    + pose proof (replace_go_length pat s (String.length pat - 1)). lia.
    + simpl in H. specialize (IH H). lia.
Qed.

(** After the quotes are taken out there is none. *)
Lemma strip_quotes_free (s : string) :
  ~ In quote (list_ascii_of_string (replaceAll s (String quote EmptyString) EmptyString)).
Proof.
  unfold replaceAll. induction s as [|c s IH]; [intros []|].
  cbn [replace_go prefix String.length Nat.sub].
  destruct (ascii_dec quote c) as [e|n].
  - rewrite prefix_empty. exact IH.
  - simpl. intros [H|H]; [now elim n | exact (IH H)].
Qed.

Lemma quote_free_includes (s : string) :
  ~ In quote (list_ascii_of_string s) -> includes s (String quote EmptyString) = false.
Proof.
  induction s as [|c s IH]; intros H; [reflexivity|].
  rewrite includes_cons. cbn [prefix].
  destruct (ascii_dec quote c) as [e|n].
  - elim H. now left.
  - apply IH. intros Hin. apply H. now right.
Qed.

(** A piece before the first quote is cut at that quote. *)
Lemma split_go_quote (a rest : string) :
  ~ In quote (list_ascii_of_string a) ->
  split_go (String quote EmptyString) 0 (a ++ String quote rest)
  = (a, let (p, ps) := split_go (String quote EmptyString) 0 rest in p :: ps).
Proof.
  induction a as [|c a IH]; intros H.
  - cbn [append split_go prefix String.length Nat.sub].
    destruct (ascii_dec quote quote) as [_|n]; [|now elim n].
    now rewrite prefix_empty.
  - cbn [append split_go prefix].
    destruct (ascii_dec quote c) as [e|n]; [elim H; now left|].
    rewrite IH; [reflexivity|]. intros Hin. apply H. now right.
Qed.

End StringFacts.

(** ** What [JSON.parse] makes of a text that ends in a brace *)
Section JsonFacts.
Import Js.

(** A text that ends in a closing brace and has tokens ends in the token of
    that brace: inside a string the brace would leave the string open. *)
Lemma lex_last_brace (s : string) (st : lexState) (ts : list token) :
  lex st (s ++ "}") = Some ts -> exists ts', ts = (ts' ++ [TRBrace])%list.
Proof.
  revert st ts. induction s as [|c s IH]; intros st ts.
  - cbn [append lex]. destruct st as [|w|acc hi|acc hi|acc hi todo u].
    + cbn. intros E. injection E as <-. now exists [].
    + cbn [lexStep]. change (isWordChar "}") with false. cbn iota.
      destruct (scalarOfWord w) as [v|]; cbn; [|discriminate].
      intros E. injection E as <-. now exists [TScalar v].
    + cbn. discriminate.
    + cbn. discriminate.
    + cbn. discriminate.
  - cbn [append lex]. destruct (lexStep st c) as [[st' toks]|]; [|discriminate].
    destruct (lex st' (s ++ "}")) as [ts1|] eqn:E1; cbn [option_map]; [|discriminate].
    intros E. injection E as <-. destruct (IH _ _ E1) as [ts' ->].
    exists (toks ++ ts')%list. now rewrite app_assoc.
Qed.

(** Tokens that end in a closing brace and make a value make an object. *)
Lemma parseTokens_last_brace (ts : list token) (p : parseState) (v : json) :
  parseTokens p (ts ++ [TRBrace]) = Some v -> exists members, v = JObj members.
Proof.
  revert p. induction ts as [|t ts IH]; intros p.
  - cbn [app parseTokens].
    destruct p as [st|st|st|es st|ms st|ms st|ms k st|v0]; cbn; try discriminate.
    + destruct st as [|[es|ms k] st]; cbn; try discriminate.
      intros E. injection E as <-. now exists [].
    + destruct st as [|[es|ms' k] st]; cbn; try discriminate.
      intros E. injection E as <-. now exists (rev ms).
  - cbn [app parseTokens]. destruct (parseStep p t) as [p'|]; [apply IH | discriminate].
Qed.

Lemma JSON_parse_braced (s : string) (v : json) :
  JSON_parse (s ++ "}") = Some v -> exists members, v = JObj members.
Proof.
  unfold JSON_parse. destruct (lex LTop (s ++ "}")) as [ts|] eqn:E; [|discriminate].
  destruct (lex_last_brace _ _ _ E) as [ts' ->]. apply parseTokens_last_brace.
Qed.

Lemma substringTo_prefix (sub s : string) :
  prefix sub s = true -> substringTo s (String.length sub) = sub.
Proof.
  revert s. induction sub as [|c sub IH]; intros s H; [now destruct s|].
  destruct s as [|c' s]; [discriminate H|]. cbn [prefix] in H.
  destruct (ascii_dec c c') as [<-|]; [|discriminate H].
  cbn [String.length substringTo]. now rewrite IH.
Qed.

(** The text up to the end of the first occurrence of [sub] ends in [sub]. *)
Lemma substringTo_indexOf (s sub : string) (n : nat) :
  indexOf s sub = Some n ->
  substringTo s (n + String.length sub) = substringTo s n ++ sub.
Proof.
  revert n. induction s as [|c s IH]; intros n; cbn [indexOf].
  - destruct (prefix sub EmptyString) eqn:Hp; [|discriminate].
    intros E. injection E as <-. destruct sub; [reflexivity | discriminate Hp].
  - destruct (prefix sub (String c s)) eqn:Hp.
    + intros E. injection E as <-. cbn [Nat.add]. now rewrite substringTo_prefix.
    + destruct (indexOf s sub) as [n'|]; cbn [option_map]; [|discriminate].
      intros E. injection E as <-. cbn [Nat.add substringTo append].
      now rewrite IH.
Qed.

End JsonFacts.

(** ** The clean-up of the answer *)
Section CleanUpFacts.
Import Js Index.
Variable engineMessage : engineError -> string.

Lemma dq_quote : dq "'" = String quote EmptyString.
Proof. reflexivity. Qed.

(** On a string the clean-up is the normalization of the specification. *)
Lemma cleanUp_string (s : string) :
  cleanUp engineMessage (JStr s) = Return (Spec.normalize s).
Proof. reflexivity. Qed.

(** Anything but a string has no method [replace]. *)
Lemma cleanUp_not_string (v : json) :
  (forall s, v <> JStr s) ->
  cleanUp engineMessage v
  = Throw (ErrorObj (engineMessage (NotAFunction "finalResponse.replace"))).
Proof. intros H. destruct v; try reflexivity. now elim (H s). Qed.

Lemma normalize_quote_free (s : string) :
  ~ In quote (list_ascii_of_string (Spec.normalize s)).
Proof.
  unfold Spec.normalize, replaceAll. intros H.
  apply replace_go_chars, replace_go_chars in H.
  rewrite dq_quote in H. exact (strip_quotes_free s H).
Qed.

Lemma normalize_fixed (t : string) :
  ~ In quote (list_ascii_of_string t) ->
  includes t "{input:{value:" = false ->
  includes t ",source:null}}" = false ->
  Spec.normalize t = t.
Proof.
  intros Hq H1 H2. unfold Spec.normalize, replaceAll.
  rewrite dq_quote, (replace_go_absent _ _ _ (quote_free_includes _ Hq)).
  rewrite (replace_go_absent _ _ _ H1). now apply replace_go_absent.
Qed.

Lemma normalize_moved (t : string) :
  Spec.normalize t = t ->
  includes t "{input:{value:" = false /\ includes t ",source:null}}" = false.
Proof.
  unfold Spec.normalize, replaceAll. intros H.
  pose proof (replace_go_length (dq "'") t 0) as L1.
  pose proof (replace_go_length "{input:{value:"
                (replace_go (dq "'") EmptyString 0 t) 0) as L2.
  pose proof (replace_go_length ",source:null}}"
                (replace_go "{input:{value:" EmptyString 0
                   (replace_go (dq "'") EmptyString 0 t)) 0) as L3.
  rewrite H in L3.
  assert (E1 : replace_go (dq "'") EmptyString 0 t = t).
  { destruct (includes t (dq "'")) eqn:Hi.
    - apply replace_go_shorter in Hi; [lia | discriminate].
    - now apply replace_go_absent. }
  rewrite E1 in *.
  assert (A1 : includes t "{input:{value:" = false).
  { destruct (includes t "{input:{value:") eqn:Hi; [|reflexivity].
    apply replace_go_shorter in Hi; [lia | discriminate]. }
  split; [exact A1|].
  rewrite (replace_go_absent _ EmptyString _ A1) in H.
  destruct (includes t ",source:null}}") eqn:Hi; [|reflexivity].
  apply replace_go_shorter in Hi; [rewrite H in Hi; lia | discriminate].
Qed.

End CleanUpFacts.

(** ** The decoder of index.ts *)
Section DecoderFacts.
Import Js Index.
Variable engineMessage : engineError -> string.

(** The last part, as the program reads it. *)
Local Abbreviation lastOf parts := (nth (List.length parts - 1) parts EmptyString).

Lemma base64_never_throws (s : string) :
  (decodedBuffer <- Buffer_from_base64 s ;; Buffer_toString_utf8 decodedBuffer)
  = Return (base64Text s).
Proof. reflexivity. Qed.

Lemma fromLastPart_returns (capturedOutput : list string) (lastResponse : string) :
  fromLastPart capturedOutput lastResponse
  = Return (capturedOutput,
            JStr (if (3 <? List.length (split lastResponse (dq "'")))%nat
                  then Spec.payloadText lastResponse else EmptyString)).
Proof.
  unfold fromLastPart, Spec.payloadText.
  destruct (3 <? List.length (split lastResponse (dq "'")))%nat; reflexivity.
Qed.

(** The pair [decodeResponse] returns is the joined [capturedOutput] and
    the answer. *)
Lemma decodeResponse_of_output (response : Response) :
  decodeResponse engineMessage response
  = match decodeOutput engineMessage response with
    | Return (capturedOutput, llmResponse) =>
        Return (join capturedOutput newline, llmResponse)
    | Throw e => Throw e
    end.
Proof.
  unfold decodeResponse.
  destruct (decodeOutput engineMessage response) as [[c l]|e]; reflexivity.
Qed.

(** The output when the last part has "bytes". *)
Lemma decodeOutput_last_bytes (body : string) :
  includes (lastOf (Spec.segments body)) "bytes" = true ->
  exists capturedOutput,
    decodeOutput engineMessage (bodyResponse body)
    = Return (capturedOutput,
              Spec.normalize
                (if (3 <? List.length (split (lastOf (Spec.segments body)) (dq "'")))%nat
                 then Spec.payloadText (lastOf (Spec.segments body))
                 else EmptyString)).
Proof.
  intros H. unfold decodeOutput, Spec.segments in *.
  cbn [bind text bodyResponse]. rewrite H, fromLastPart_returns.
  cbn [bind]. rewrite cleanUp_string. cbn [bind]. eexists. reflexivity.
Qed.

(** The segment that ends a body and is payload-bearing is the last
    payload-bearing one. *)
Lemma last_payloadBearing (body : string) :
  includes (lastOf (Spec.segments body)) "bytes" = true ->
  Spec.lastPayloadBearing body = Some (lastOf (Spec.segments body)).
Proof.
  unfold Spec.lastPayloadBearing. generalize (Spec.segments body) as l.
  intros l H. destruct (exists_last (l := l)) as [l' [x E]].
  - intros ->. discriminate H.
  - subst l. rewrite length_app, app_nth2 in H |- * by (simpl; lia).
    replace (List.length l' + List.length [x] - 1 - List.length l') with 0 in *
      by (simpl; lia).
    cbn [nth] in *. rewrite filter_app, map_app. cbn [filter].
    unfold Spec.payloadBearing at 2. rewrite H. cbn [map]. apply last_last.
Qed.

(** [indexOf] finds nothing exactly where [includes] says no. *)
Lemma indexOf_none (s sub : string) :
  indexOf s sub = None <-> includes s sub = false.
Proof.
  induction s as [|c s IH].
  - cbn [indexOf includes]. destruct (prefix sub EmptyString); split; intros H;
      try reflexivity; discriminate H.
  - rewrite includes_cons. cbn [indexOf].
    destruct (prefix sub (String c s)); cbn [orb].
    + split; intros H; discriminate H.
    + rewrite <- IH. destruct (indexOf s sub); cbn [option_map]; split; intros H;
        try reflexivity; discriminate H.
Qed.

(** The output when the last part has no "bytes". *)
Lemma decodeOutput_last_no_bytes (body : string) :
  includes (lastOf (Spec.segments body)) "bytes" = false ->
  exists capturedOutput,
    decodeOutput engineMessage (bodyResponse body)
    = (llmResponse <- cleanUp engineMessage
                        (snd (fromMarker engineMessage capturedOutput body)) ;;
       Return (fst (fromMarker engineMessage capturedOutput body), llmResponse)).
Proof.
  intros H. unfold decodeOutput, Spec.segments in *.
  cbn [bind text bodyResponse]. rewrite H. cbn [bind].
  match goal with |- context [fromMarker engineMessage ?c body] => exists c end.
  destruct (fromMarker engineMessage _ body) as [c v]. reflexivity.
Qed.

Lemma fromMarker_no_marker (capturedOutput : list string) (body : string) :
  indexOf body searchString = None ->
  fromMarker engineMessage capturedOutput body = (capturedOutput, JStr EmptyString).
Proof. intros H. unfold fromMarker. now rewrite H. Qed.

Lemma fromMarker_no_end (capturedOutput : list string) (body : string) (startIdx : nat) :
  indexOf body searchString = Some startIdx ->
  indexOf (substringFrom body (startIdx + String.length searchString)) (dq "'}") = None ->
  fromMarker engineMessage capturedOutput body = (capturedOutput, JStr EmptyString).
Proof. intros H1 H2. unfold fromMarker. now rewrite H1, H2. Qed.

Lemma fromMarker_syntax_error (capturedOutput : list string) (body : string)
    (startIdx endIdx : nat) :
  indexOf body searchString = Some startIdx ->
  let part1 := substringFrom body (startIdx + String.length searchString) in
  indexOf part1 (dq "'}") = Some endIdx ->
  let part2 := substringTo part1 (endIdx + 2) in
  JSON_parse part2 = None ->
  fromMarker engineMessage capturedOutput body
  = (push capturedOutput ("Error parsing JSON: " ++ engineMessage (SyntaxErrorIn part2)),
     JStr EmptyString).
Proof.
  intros H1 part1 H2 part2 H3. unfold fromMarker, parseJSON.
  rewrite H1. fold part1. rewrite H2. fold part2. now rewrite H3.
Qed.

Lemma fromMarker_object (capturedOutput : list string) (body : string)
    (startIdx endIdx : nat) (members : list (string * json)) :
  indexOf body searchString = Some startIdx ->
  let part1 := substringFrom body (startIdx + String.length searchString) in
  indexOf part1 (dq "'}") = Some endIdx ->
  let part2 := substringTo part1 (endIdx + 2) in
  JSON_parse part2 = Some (JObj members) ->
  fromMarker engineMessage capturedOutput body
  = (capturedOutput, orEmpty (lookupMember members "text")).
Proof.
  intros H1 part1 H2 part2 H3. unfold fromMarker, parseJSON.
  rewrite H1. fold part1. rewrite H2. fold part2. now rewrite H3.
Qed.

(** The text handed to [JSON.parse] ends in a brace. *)
Lemma part2_braced (part1 : string) (endIdx : nat) :
  indexOf part1 (dq "'}") = Some endIdx ->
  exists before, substringTo part1 (endIdx + 2) = before ++ "}".
Proof.
  intros H. exists (substringTo part1 endIdx ++ String quote EmptyString).
  rewrite append_assoc. exact (substringTo_indexOf part1 (dq "'}") endIdx H).
Qed.

(** The marker branch adds at most one line, and only at the end. *)
Lemma fromMarker_trace (capturedOutput : list string) (body : string) :
  exists extra,
    fst (fromMarker engineMessage capturedOutput body) = (capturedOutput ++ extra)%list
    /\ List.length extra <= 1.
Proof.
  unfold fromMarker.
  destruct (indexOf body searchString) as [startIdx|];
    [|exists []; rewrite app_nil_r; split; [reflexivity | simpl; lia]].
  destruct (indexOf _ (dq "'}")) as [endIdx|];
    [|exists []; rewrite app_nil_r; split; [reflexivity | simpl; lia]].
  match goal with |- context [bind ?m ?k] => destruct (bind m k) end.
  - exists []. rewrite app_nil_r. split; [reflexivity | simpl; lia].
  - eexists [_]. split; [reflexivity | simpl; lia].
Qed.

(** Once the text of the response is read, the decoder fails in one way
    only: [replace] called on a value that is no string. *)
Lemma decodeOutput_returns_or_replace_fails (body : string) :
  (exists capturedOutput llmResponse,
     decodeOutput engineMessage (bodyResponse body) = Return (capturedOutput, llmResponse))
  \/ decodeOutput engineMessage (bodyResponse body)
     = Throw (ErrorObj (engineMessage (NotAFunction "finalResponse.replace"))).
Proof.
  destruct (includes (lastOf (Spec.segments body)) "bytes") eqn:H.
  - left. destruct (decodeOutput_last_bytes body H) as [c E]. eauto.
  - destruct (decodeOutput_last_no_bytes body H) as [c E]. rewrite E.
    destruct (snd (fromMarker engineMessage c body)) as [|b|n d e|s|l|m] eqn:Ev;
      try (right; reflexivity).
    left. rewrite cleanUp_string. cbn [bind]. eauto.
Qed.

(** What the loop adds for one part. *)
Lemma processPart_lines (capturedOutput : list string) (idx : nat) (part : string) :
  processPart capturedOutput idx part = (capturedOutput ++ Spec.partLines idx part)%list.
Proof.
  unfold processPart, Spec.partLines, Spec.payloadBearing, Spec.payloadText, push.
  destruct (includes part "bytes").
  - destruct (3 <? List.length (split part (dq "'")))%nat.
    + now rewrite base64_never_throws.
    + now rewrite app_nil_r.
  - now rewrite <- app_assoc.
Qed.

(** What the loop adds for the parts from [idx] on, in their order. *)
Lemma processParts_lines (capturedOutput : list string) (idx : nat) (rest : list string) :
  processParts capturedOutput idx rest
  = (capturedOutput
       ++ flat_map (fun ip => Spec.partLines (fst ip) (snd ip))
            (combine (seq idx (List.length rest)) rest))%list.
Proof.
  revert capturedOutput idx. induction rest as [|part rest IH]; intros acc idx.
  - cbn. now rewrite app_nil_r.
  - cbn [processParts List.length seq combine flat_map fst snd].
    now rewrite IH, processPart_lines, <- app_assoc.
Qed.

Lemma partLines_count (idx : nat) (rest : list string) :
  List.length (flat_map (fun ip => Spec.partLines (fst ip) (snd ip))
                 (combine (seq idx (List.length rest)) rest))
  = 2 * List.length (filter (fun p => negb (Spec.payloadBearing p)) rest)
    + List.length
        (filter (fun p => Spec.payloadBearing p
                          && (3 <? List.length (split p (dq "'")))%nat) rest).
Proof.
  revert idx. induction rest as [|part rest IH]; intros idx; [reflexivity|].
  cbn [List.length seq combine flat_map fst snd filter].
  rewrite length_app, IH. unfold Spec.partLines.
  destruct (Spec.payloadBearing part); cbn [negb andb].
  - destruct (3 <? List.length (split part (dq "'")))%nat; cbn [List.length]; lia.
  - cbn [List.length]. lia.
Qed.

(** The lines of a trace: three at the head, those of the parts, and two
    or three at the end. *)
Lemma decodeOutput_trace (body : string) (lines : list string) (answer : string) :
  decodeOutput engineMessage (bodyResponse body) = Return (lines, answer) ->
  exists closing,
    lines
    = ([("Decoded response: " ++ body)%string;
        ("Split Response: " ++ stringifyStrings (Spec.segments body))%string;
        ("length of split: "
           ++ numberToString (List.length (Spec.segments body)))%string]
         ++ flat_map (fun ip => Spec.partLines (fst ip) (snd ip))
              (combine (seq 0 (List.length (Spec.segments body))) (Spec.segments body))
         ++ closing)%list
    /\ 2 <= List.length closing <= 3.
Proof.
  unfold decodeOutput, Spec.segments. cbn [bind text bodyResponse].
  rewrite processParts_lines. unfold push. cbn [app].
  destruct (includes (lastOf (split body ":message-type")) "bytes").
  - rewrite fromLastPart_returns. cbn [bind]. rewrite cleanUp_string. cbn [bind].
    intros E. injection E as <- _. eexists [_; _].
    split; [|simpl; lia]. cbn [app]. now rewrite <- !app_assoc.
  - cbn [bind].
    match goal with |- context [fromMarker engineMessage ?c body] =>
      destruct (fromMarker_trace c body) as [extra [Ef Hl]];
      destruct (fromMarker engineMessage c body) as [c' v] end.
    cbn [fst] in Ef. subst c'.
    destruct (cleanUp engineMessage v); cbn [bind]; [|discriminate].
    intros E. injection E as <- _. eexists (_ :: _ :: extra).
    split; [|simpl; lia]. cbn [app]. now rewrite <- !app_assoc.
Qed.

(** Every answer comes out of the clean-up of a string. *)
Lemma decodeOutput_answer_normal (response : Response) (lines : list string)
    (answer : string) :
  decodeOutput engineMessage response = Return (lines, answer) ->
  exists s, answer = Spec.normalize s.
Proof.
  unfold decodeOutput.
  destruct (text response) as [responseText|e]; cbn [bind]; [|discriminate].
  match goal with |- context [includes ?l "bytes"] => destruct (includes l "bytes") end.
  - rewrite fromLastPart_returns. cbn [bind]. rewrite cleanUp_string. cbn [bind].
    intros E. injection E as _ <-. eexists. reflexivity.
  - cbn [bind].
    match goal with |- context [fromMarker engineMessage ?c ?b] =>
      destruct (fromMarker engineMessage c b) as [c' v] end.
    destruct v; try discriminate.
    rewrite cleanUp_string. cbn [bind]. intros E. injection E as _ <-.
    eexists. reflexivity.
Qed.

End DecoderFacts.

(** ** Splitting at a separator that is met *)
Section SplitFacts.
Import Js.

(** The characters of a separator just matched are passed over. *)
Lemma split_go_skip (sep p s : string) :
  split_go sep (String.length p) (p ++ s) = split_go sep 0 s
  \/ (s = EmptyString /\ split_go sep (String.length p) (p ++ s) = (EmptyString, [])).
Proof.
  induction p as [|c p IH]; cbn [String.length append].
  - now left.
  - cbn [split_go]. exact IH.
Qed.

Lemma split_go_empty (sep : string) : split_go sep 0 EmptyString = (EmptyString, []).
Proof. reflexivity. Qed.

Lemma split_go_passed (sep p s : string) :
  split_go sep (String.length p) (p ++ s) = split_go sep 0 s.
Proof.
  destruct (split_go_skip sep p s) as [E|[-> E]]; [exact E|].
  now rewrite E, split_go_empty.
Qed.

(** Where the separator does not begin, the open piece takes a character. *)
Lemma split_go_step (sep : string) (c : ascii) (s : string) :
  prefix sep (String c s) = false ->
  split_go sep 0 (String c s) = let (p, ps) := split_go sep 0 s in (String c p, ps).
Proof. intros H. cbn [split_go]. now rewrite H. Qed.

(** At the separator a piece ends and the next begins after it. *)
Lemma split_go_match (c : ascii) (sep s : string) :
  split_go (String c sep) 0 (String c sep ++ s)
  = (EmptyString, let (p, ps) := split_go (String c sep) 0 s in p :: ps).
Proof.
  cbn [append split_go].
  replace (prefix (String c sep) (String c (sep ++ s))) with true
    by (symmetry; apply (prefix_append (String c sep) s)).
  cbn [String.length Nat.sub]. rewrite Nat.sub_0_r.
  now rewrite (split_go_passed (String c sep) sep s).
Qed.

(** The pieces of a text whose fourth quote-delimited field is [field]. *)
Lemma split_fourth_field (a b c field d : string) :
  ~ In quote (list_ascii_of_string a) ->
  ~ In quote (list_ascii_of_string b) ->
  ~ In quote (list_ascii_of_string c) ->
  ~ In quote (list_ascii_of_string field) ->
  split (a ++ String quote (b ++ String quote (c ++ String quote (field ++ String quote d))))
        (String quote EmptyString)
  = a :: b :: c :: field :: split d (String quote EmptyString).
Proof.
  intros Ha Hb Hc Hf. unfold split.
  now rewrite !split_go_quote by assumption.
Qed.

End SplitFacts.

(** ** The specification's claims about the decoder *)
Section DecoderClaims.
Import Js Index.
Variable engineMessage : engineError -> string.

Local Abbreviation lastOf parts := (nth (List.length parts - 1) parts EmptyString).

(** C1, as amended.  When the segment that ends the body is
    payload-bearing, it is the last payload-bearing segment, and
    [decodeResponse] returns as the answer the normalized base64-decoded
    text of its fourth quote-delimited field, or the empty string when it
    has fewer than four such fields. *)
Theorem answer_of_final_segment (body : string) :
  Spec.payloadBearing (lastOf (Spec.segments body)) = true ->
  Spec.lastPayloadBearing body = Some (lastOf (Spec.segments body))
  /\ exists trace,
       decodeResponse engineMessage (bodyResponse body)
       = Return (trace,
                 Spec.normalize
                   (if (3 <? List.length (split (lastOf (Spec.segments body)) (dq "'")))%nat
                    then Spec.payloadText (lastOf (Spec.segments body))
                    else EmptyString)).
Proof.
  intros H. split; [now apply last_payloadBearing|].
  destruct (decodeOutput_last_bytes engineMessage body H) as [c E].
  rewrite decodeResponse_of_output, E. eexists. reflexivity.
Qed.

(** C2, at the input where it fails.  The text after the marker parses as
    an object whose "text" is the number 1; [replace] is then called on a
    number, and the [TypeError] leaves [decodeResponse]. *)
Theorem decodeResponse_raises_on_number_text :
  decodeResponse engineMessage (bodyResponse (dq "finalResponse':{'text':1,'k':'v'}"))
  = Throw (ErrorObj (engineMessage (NotAFunction "finalResponse.replace"))).
Proof. reflexivity. Qed.

(** With no payload-bearing segment and no marker the answer is the empty
    string. *)
Lemma answer_empty_without_marker (body : string) :
  Forall (fun segment => Spec.payloadBearing segment = false) (Spec.segments body) ->
  includes body searchString = false ->
  exists trace, decodeResponse engineMessage (bodyResponse body) = Return (trace, EmptyString).
Proof.
  intros Hall Hm.
  assert (Hl : includes (lastOf (Spec.segments body)) "bytes" = false).
  { destruct (Spec.segments body) as [|p ps] eqn:E; [reflexivity|].
    rewrite Forall_forall in Hall. apply Hall, nth_In. simpl. lia. }
  destruct (decodeOutput_last_no_bytes engineMessage body Hl) as [c E].
  rewrite decodeResponse_of_output, E.
  rewrite fromMarker_no_marker by (now apply indexOf_none).
  cbn [snd fst]. rewrite cleanUp_string. cbn [bind]. eexists. reflexivity.
Qed.

(** C3, as amended.  When the segment that ends the body is not
    payload-bearing and the marker is found: the answer is the empty string
    if no quote-and-brace follows the marker or the text up to it does not
    parse; if that text parses, it is an object, and the answer is its
    "text" normalized when that is a string, and the empty string when it
    is missing, null, false, zero or empty. *)
Theorem answer_after_marker (body : string) (startIdx : nat) :
  Spec.payloadBearing (lastOf (Spec.segments body)) = false ->
  indexOf body searchString = Some startIdx ->
  let part1 := substringFrom body (startIdx + String.length searchString) in
  (indexOf part1 (dq "'}") = None ->
   exists trace,
     decodeResponse engineMessage (bodyResponse body) = Return (trace, EmptyString))
  /\ (forall endIdx, indexOf part1 (dq "'}") = Some endIdx ->
      let part2 := substringTo part1 (endIdx + 2) in
      (JSON_parse part2 = None ->
       exists trace,
         decodeResponse engineMessage (bodyResponse body) = Return (trace, EmptyString))
      /\ (forall parsed, JSON_parse part2 = Some parsed ->
          exists members,
            parsed = JObj members
            /\ (forall value, lookupMember members "text" = Some (JStr value) ->
                exists trace,
                  decodeResponse engineMessage (bodyResponse body)
                  = Return (trace, Spec.normalize value))
            /\ (truthy (lookupMember members "text") = false ->
                exists trace,
                  decodeResponse engineMessage (bodyResponse body)
                  = Return (trace, EmptyString)))).
Proof.
  intros Hl Hs part1.
  destruct (decodeOutput_last_no_bytes engineMessage body Hl) as [c E].
  rewrite decodeResponse_of_output, E. clear E.
  split; [|intros endIdx He part2; split].
  - intros He. rewrite (fromMarker_no_end _ _ _ _ Hs He).
    cbn [snd fst]. rewrite cleanUp_string. cbn [bind]. eexists. reflexivity.
  - intros Hp. rewrite (fromMarker_syntax_error _ _ _ _ _ Hs He Hp).
    cbn [snd fst]. rewrite cleanUp_string. cbn [bind]. eexists. reflexivity.
  - intros parsed Hp. destruct (part2_braced part1 endIdx He) as [before Eb].
    fold part2 in Eb. destruct (JSON_parse_braced before parsed) as [members ->];
      [now rewrite <- Eb|].
    exists members. split; [reflexivity|].
    rewrite (fromMarker_object _ _ _ _ _ _ Hs He Hp). cbn [snd fst]. split.
    + intros value Hv. rewrite Hv. cbn [orEmpty truthy].
      destruct (String.eqb value EmptyString) eqn:Ee; cbn [negb].
      * apply String.eqb_eq in Ee. subst value.
        rewrite cleanUp_string. cbn [bind]. eexists. reflexivity.
      * rewrite cleanUp_string. cbn [bind]. eexists. reflexivity.
    + intros Hf. unfold orEmpty. rewrite Hf.
      destruct (lookupMember members "text"); rewrite cleanUp_string; cbn [bind];
        eexists; reflexivity.
Qed.

(** After the marker, a "text" that is neither a string nor falsy makes
    [decodeResponse] raise. *)
Lemma raises_after_marker (body : string) (startIdx endIdx : nat)
    (members : list (string * json)) (value : json) :
  Spec.payloadBearing (lastOf (Spec.segments body)) = false ->
  indexOf body searchString = Some startIdx ->
  let part1 := substringFrom body (startIdx + String.length searchString) in
  indexOf part1 (dq "'}") = Some endIdx ->
  JSON_parse (substringTo part1 (endIdx + 2)) = Some (JObj members) ->
  lookupMember members "text" = Some value ->
  truthy (Some value) = true ->
  (forall s, value <> JStr s) ->
  decodeResponse engineMessage (bodyResponse body)
  = Throw (ErrorObj (engineMessage (NotAFunction "finalResponse.replace"))).
Proof.
  intros Hl Hs part1 He Hp Hv Ht Hn.
  destruct (decodeOutput_last_no_bytes engineMessage body Hl) as [c E].
  rewrite decodeResponse_of_output, E.
  rewrite (fromMarker_object _ _ _ _ _ _ Hs He Hp), Hv. cbn [snd fst].
  unfold orEmpty. rewrite Ht. now rewrite (cleanUp_not_string engineMessage value Hn).
Qed.

(** [decodeResponse] raises in that case only. *)
Lemma raises_only_after_marker (body : string) (e : exn) :
  decodeResponse engineMessage (bodyResponse body) = Throw e ->
  Spec.payloadBearing (lastOf (Spec.segments body)) = false
  /\ exists startIdx endIdx members value,
       indexOf body searchString = Some startIdx
       /\ indexOf (substringFrom body (startIdx + String.length searchString)) (dq "'}")
          = Some endIdx
       /\ JSON_parse
            (substringTo (substringFrom body (startIdx + String.length searchString))
               (endIdx + 2))
          = Some (JObj members)
       /\ lookupMember members "text" = Some value
       /\ truthy (Some value) = true
       /\ (forall s, value <> JStr s).
Proof.
  intros H.
  destruct (Spec.payloadBearing (lastOf (Spec.segments body))) eqn:Hl.
  { destruct (decodeOutput_last_bytes engineMessage body Hl) as [c E].
    rewrite decodeResponse_of_output, E in H. discriminate H. }
  split; [reflexivity|].
  destruct (decodeOutput_last_no_bytes engineMessage body Hl) as [c E].
  rewrite decodeResponse_of_output, E in H. clear E.
  destruct (indexOf body searchString) as [startIdx|] eqn:Hs.
  2:{ rewrite (fromMarker_no_marker _ _ _ Hs) in H. discriminate H. }
  destruct (indexOf (substringFrom body (startIdx + String.length searchString)) (dq "'}"))
    as [endIdx|] eqn:He.
  2:{ rewrite (fromMarker_no_end _ _ _ _ Hs He) in H. discriminate H. }
  destruct (JSON_parse
              (substringTo (substringFrom body (startIdx + String.length searchString))
                 (endIdx + 2))) as [parsed|] eqn:Hp.
  2:{ rewrite (fromMarker_syntax_error _ _ _ _ _ Hs He Hp) in H. discriminate H. }
  destruct (part2_braced _ endIdx He) as [before Eb].
  destruct (JSON_parse_braced before parsed) as [members ->]; [now rewrite <- Eb|].
  rewrite (fromMarker_object _ _ _ _ _ _ Hs He Hp) in H. cbn [snd fst] in H.
  exists startIdx, endIdx, members.
  destruct (lookupMember members "text") as [value|] eqn:Hv.
  2:{ discriminate H. }
  exists value. unfold orEmpty in H.
  destruct (truthy (Some value)) eqn:Ht; [|discriminate H].
  split; [reflexivity|]. split; [exact He|]. split; [exact Hp|].
  split; [reflexivity|]. split; [reflexivity|].
  intros t ->. discriminate H.
Qed.

(** C4, as amended.  Processing a payload-bearing part keeps what was
    captured and adds at most one line: the text its fourth quote-delimited
    field decodes to when that field is well-formed base64, and none when
    the part has fewer than four such fields.  When the segment that ends
    the body is payload-bearing, [decodeResponse] raises nothing, whatever
    the segments hold, and when the fourth field of that segment is
    well-formed base64 the answer is its decoded text, normalized, whatever
    the segments before it hold.  What a field that is not base64 gives is
    left open. *)
Theorem payload_parts_never_fail :
  (forall (capturedOutput : list string) (idx : nat) (part : string),
     Spec.payloadBearing part = true ->
     (exists added,
        processPart capturedOutput idx part = (capturedOutput ++ added)%list
        /\ List.length added <= 1)
     /\ ((3 <? List.length (split part (dq "'")))%nat = true ->
         Spec.wellFormedBase64 (nth 3 (split part (dq "'")) EmptyString) = true ->
         processPart capturedOutput idx part
         = (capturedOutput ++ [Spec.payloadText part])%list)
     /\ ((3 <? List.length (split part (dq "'")))%nat = false ->
         processPart capturedOutput idx part = capturedOutput))
  /\ (forall body : string,
        Spec.payloadBearing (lastOf (Spec.segments body)) = true ->
        (exists trace answer,
           decodeResponse engineMessage (bodyResponse body) = Return (trace, answer))
        /\ ((3 <? List.length (split (lastOf (Spec.segments body)) (dq "'")))%nat = true ->
            Spec.wellFormedBase64
              (nth 3 (split (lastOf (Spec.segments body)) (dq "'")) EmptyString) = true ->
            exists trace,
              decodeResponse engineMessage (bodyResponse body)
              = Return (trace,
                        Spec.normalize (Spec.payloadText (lastOf (Spec.segments body)))))).
Proof.
  split.
  - intros acc idx part H. rewrite processPart_lines. unfold Spec.partLines.
    rewrite H. split; [|split].
    + destruct (3 <? List.length (split part (dq "'")))%nat;
        eexists; (split; [reflexivity | simpl; lia]).
    + intros -> _. reflexivity.
    + intros ->. now rewrite app_nil_r.
  - intros body H. destruct (decodeOutput_last_bytes engineMessage body H) as [c E].
    rewrite decodeResponse_of_output, E. split.
    + eexists. eexists. reflexivity.
    + intros -> _. eexists. reflexivity.
Qed.

(** C5, as amended.  The clean-up leaves no double quote, and a second
    clean-up changes nothing exactly when the first left neither noise
    substring in its result. *)
Theorem cleanUp_twice (s t : string) :
  cleanUp engineMessage (JStr s) = Return t ->
  ~ In quote (list_ascii_of_string t)
  /\ (cleanUp engineMessage (JStr t) = Return t
      <-> includes t "{input:{value:" = false /\ includes t ",source:null}}" = false).
Proof.
  rewrite !cleanUp_string. intros E. injection E as <-.
  split; [apply normalize_quote_free|]. split.
  - intros E. injection E as E. now apply normalize_moved.
  - intros [H1 H2]. f_equal. apply normalize_fixed; [apply normalize_quote_free | | ];
      assumption.
Qed.

(** C7, as amended.  After "x" and the marker, a segment that contains
    "bytes" and whose fourth quote-delimited field is the base64 of
    "Hello" gives the answer "Hello". *)
Theorem answer_hello (a b c d : string) :
  ~ In quote (list_ascii_of_string a) ->
  ~ In quote (list_ascii_of_string b) ->
  ~ In quote (list_ascii_of_string c) ->
  let segment :=
    a ++ String quote (b ++ String quote (c ++ String quote ("SGVsbG8=" ++ String quote d))) in
  includes segment "bytes" = true ->
  includes segment ":message-type" = false ->
  exists trace,
    decodeResponse engineMessage (bodyResponse ("x:message-type" ++ segment))
    = Return (trace, "Hello").
Proof.
  intros Ha Hb Hc segment Hbytes Hsep.
  assert (Es : Spec.segments ("x:message-type" ++ segment) = ["x"; segment]).
  { change ("x:message-type" ++ segment) with (String "x" (":message-type" ++ segment)).
    unfold Spec.segments, split. rewrite split_go_step by reflexivity.
    rewrite split_go_match, (split_go_absent _ _ Hsep). reflexivity. }
  assert (Hl : includes (lastOf (Spec.segments ("x:message-type" ++ segment))) "bytes" = true)
    by (rewrite Es; exact Hbytes).
  destruct (decodeOutput_last_bytes engineMessage _ Hl) as [co E].
  rewrite decodeResponse_of_output, E, Es. cbn [List.length Nat.sub nth].
  unfold Spec.payloadText. rewrite dq_quote. unfold segment.
  rewrite split_fourth_field by (assumption || (simpl; intuition discriminate)).
  eexists. reflexivity.
Qed.

(** C9, as amended.  The trace holds three lines, then the lines of the
    segments in split order, then two or three closing lines; a segment
    gives two lines when it is not payload-bearing, one when it is and has
    a fourth quote-delimited field, and none otherwise, so the length of
    the trace is counted by kind of segment and not by their number. *)
Theorem trace_follows_segments (body : string) (lines : list string) (answer : string) :
  decodeOutput engineMessage (bodyResponse body) = Return (lines, answer) ->
  exists closing,
    lines
    = ([("Decoded response: " ++ body)%string;
        ("Split Response: " ++ stringifyStrings (Spec.segments body))%string;
        ("length of split: "
           ++ numberToString (List.length (Spec.segments body)))%string]
         ++ flat_map (fun ip => Spec.partLines (fst ip) (snd ip))
              (combine (seq 0 (List.length (Spec.segments body))) (Spec.segments body))
         ++ closing)%list
    /\ 2 <= List.length closing <= 3
    /\ List.length lines
       = 3 + 2 * List.length
                   (filter (fun p => negb (Spec.payloadBearing p)) (Spec.segments body))
         + List.length
             (filter (fun p => Spec.payloadBearing p
                               && (3 <? List.length (split p (dq "'")))%nat)
                (Spec.segments body))
         + List.length closing.
Proof.
  intros H. destruct (decodeOutput_trace engineMessage body lines answer H)
    as [closing [E Hc]].
  exists closing. split; [exact E|]. split; [exact Hc|].
  rewrite E, !length_app, partLines_count. cbn [List.length]. lia.
Qed.

(** C10.  The answer [decodeResponse] returns holds no double quote. *)
Theorem answer_without_quotes (response : Response) (trace answer : string) :
  decodeResponse engineMessage response = Return (trace, answer) ->
  ~ In quote (list_ascii_of_string answer).
Proof.
  rewrite decodeResponse_of_output.
  destruct (decodeOutput engineMessage response) as [[lines llmResponse]|e] eqn:E;
    [|discriminate].
  intros H. injection H as _ <-.
  destruct (decodeOutput_answer_normal engineMessage response _ _ E) as [s ->].
  apply normalize_quote_free.
Qed.

End DecoderClaims.

(** ** The decoder at given bodies *)
Section DecoderExamples.
Import Js Index.

(** At a body whose payload-bearing segment is followed by one that is not,
    the answer is not the text of the last payload-bearing segment: it is
    empty, though that segment decodes to "Hello". *)
Lemma last_payload_segment_passed_over :
  exists segment,
    Spec.lastPayloadBearing (dq "{'bytes':'SGVsbG8='}:message-typeend") = Some segment
    /\ Spec.normalize (Spec.payloadText segment) = "Hello"
    /\ (exists trace,
          decodeResponse v8Message (bodyResponse (dq "{'bytes':'SGVsbG8='}:message-typeend"))
          = Return (trace, EmptyString))
    /\ ~ (exists trace,
            decodeResponse v8Message (bodyResponse (dq "{'bytes':'SGVsbG8='}:message-typeend"))
            = Return (trace, Spec.normalize (Spec.payloadText segment))).
Proof.
  exists (dq "{'bytes':'SGVsbG8='}").
  split; [reflexivity|]. split; [reflexivity|]. split.
  - eexists. vm_compute. reflexivity.
  - intros [trace H]. vm_compute in H. discriminate H.
Qed.

Lemma answer_of_final_segment_witness :
  exists trace,
    decodeResponse v8Message
      (bodyResponse (dq "end:message-type{'bytes':'IkhpIg=='}"))
    = Return (trace, "Hi").
Proof.
  exact (proj2 (answer_of_final_segment v8Message
                  (dq "end:message-type{'bytes':'IkhpIg=='}") eq_refl)).
Defined.

(** At the body the specification gives as its example of the marker, no
    segment is payload-bearing and the marker is there, yet the text taken
    after it is no JSON: no "text" is read and the answer is empty. *)
Lemma marker_text_not_json :
  filter Spec.payloadBearing
    (Spec.segments (dq "finalResponse':'{'text':'Hi there'}'}")) = []
  /\ includes (dq "finalResponse':'{'text':'Hi there'}'}") searchString = true
  /\ (exists trace,
        decodeResponse v8Message
          (bodyResponse (dq "finalResponse':'{'text':'Hi there'}'}"))
        = Return (trace, EmptyString))
  /\ ~ (exists startIdx endIdx parsed value trace,
          indexOf (dq "finalResponse':'{'text':'Hi there'}'}") searchString = Some startIdx
          /\ indexOf (substringFrom (dq "finalResponse':'{'text':'Hi there'}'}")
                        (startIdx + String.length searchString)) (dq "'}")
             = Some endIdx
          /\ JSON_parse
               (substringTo
                  (substringFrom (dq "finalResponse':'{'text':'Hi there'}'}")
                     (startIdx + String.length searchString)) (endIdx + 2))
             = Some parsed
          /\ getProperty v8Message parsed "text" = Return (Some (JStr value))
          /\ decodeResponse v8Message
               (bodyResponse (dq "finalResponse':'{'text':'Hi there'}'}"))
             = Return (trace, Spec.normalize value)).
Proof.
  split; [reflexivity|]. split; [reflexivity|]. split.
  - eexists. vm_compute. reflexivity.
  - intros (startIdx & endIdx & parsed & value & trace & H1 & H2 & H3 & _).
    vm_compute in H1. injection H1 as <-.
    vm_compute in H2. injection H2 as <-.
    vm_compute in H3. discriminate H3.
Qed.

Lemma answer_after_marker_witness :
  exists trace,
    decodeResponse v8Message (bodyResponse (dq "finalResponse':{'text':'Hi there'}"))
    = Return (trace, "Hi there").
Proof.
  destruct (proj2 (proj2 (answer_after_marker v8Message
                            (dq "finalResponse':{'text':'Hi there'}") 0
                            eq_refl eq_refl)
                     17 eq_refl)
              (JObj [("text", JStr "Hi there")]) eq_refl)
    as [members [E [H _]]].
  injection E as <-. exact (H "Hi there" eq_refl).
Defined.

(** At a body of three payload-bearing segments of which the last holds a
    field that is not base64, no error line is written, the field is
    decoded all the same, and what it decodes to is the answer.  At a body
    where such a segment stands between a valid one and a last segment that
    is not payload-bearing, no error line is written either, and the answer
    is not computed from the valid segment: it is empty. *)
Lemma malformed_field_is_the_answer :
  Spec.wellFormedBase64 "SGk*" = false
  /\ (exists lines,
        decodeOutput v8Message
          (bodyResponse
             (dq "{'bytes':'SGVsbG8='}:message-type{'bytes':'V29ybGQ='}:message-type{'bytes':'SGk*'}"))
        = Return (lines, "Hi")
        /\ In "World" lines
        /\ Forall (fun line => prefix "Error decoding base64" line = false) lines)
  /\ (exists lines,
        decodeOutput v8Message
          (bodyResponse
             (dq "{'bytes':'SGVsbG8='}:message-type{'bytes':'SGk*'}:message-typeend"))
        = Return (lines, EmptyString)
        /\ In "Hello" lines
        /\ Forall (fun line => prefix "Error decoding base64" line = false) lines).
Proof.
  split; [reflexivity|]. split.
  - eexists. split; [vm_compute; reflexivity|].
    split; [simpl; tauto|]. repeat constructor.
  - eexists. split; [vm_compute; reflexivity|].
    split; [simpl; tauto|]. repeat constructor.
Qed.

Lemma payload_parts_never_fail_witness :
  processPart ["first"] 1 (dq "{'bytes':'SGVsbG8='}") = ["first"; "Hello"]
  /\ processPart ["first"] 1 "...bytes..." = ["first"]
  /\ (exists trace answer,
        decodeResponse v8Message (bodyResponse (dq "x:message-type{'bytes':'SGk*'}"))
        = Return (trace, answer))
  /\ (exists trace,
        decodeResponse v8Message
          (bodyResponse (dq "{'bytes':'SGk*'}:message-type{'bytes':'SGVsbG8='}"))
        = Return (trace, "Hello")).
Proof.
  split; [|split; [|split]].
  - exact (proj1 (proj2 (proj1 (payload_parts_never_fail v8Message) ["first"] 1
                           (dq "{'bytes':'SGVsbG8='}") eq_refl))
             eq_refl eq_refl).
  - exact (proj2 (proj2 (proj1 (payload_parts_never_fail v8Message) ["first"] 1
                           "...bytes..." eq_refl))
             eq_refl).
  - exact (proj1 (proj2 (payload_parts_never_fail v8Message)
                    (dq "x:message-type{'bytes':'SGk*'}") eq_refl)).
  - exact (proj2 (proj2 (payload_parts_never_fail v8Message)
                    (dq "{'bytes':'SGk*'}:message-type{'bytes':'SGVsbG8='}") eq_refl)
             eq_refl eq_refl).
Defined.

(** A field that holds a character above U+00FF: Node reads U+0141 by its
    low byte, the digit A, and the answer ends in the NUL this decodes
    to. *)
Remark answer_reads_low_bytes :
  exists trace,
    decodeResponse v8Message
      (bodyResponse (dq "{'bytes':'SGk" ++ utf8Encode 321 ++ dq "'}"))
    = Return (trace, "Hi" ++ String (ascii_of_nat 0) EmptyString).
Proof. eexists. vm_compute. reflexivity. Qed.

(** Taking one noise substring out can join what stood around it into
    another: a second clean-up then changes the text again. *)
Lemma cleanUp_not_idempotent :
  cleanUp v8Message (JStr "{input:{va{input:{value:lue:") = Return "{input:{value:"
  /\ cleanUp v8Message (JStr "{input:{value:") = Return EmptyString.
Proof. split; reflexivity. Qed.

Lemma cleanUp_twice_witness :
  cleanUp v8Message (JStr "Hi there") = Return "Hi there".
Proof.
  exact (proj2 (proj2 (cleanUp_twice v8Message (dq "'Hi there'") "Hi there" eq_refl))
           (conj eq_refl eq_refl)).
Defined.

(** At the body of the example as it is written, the base64 of "Hello" is
    the second quote-delimited field of its segment, not the fourth, and
    the answer is empty. *)
Lemma answer_without_hello :
  exists trace,
    decodeResponse v8Message
      (bodyResponse (dq "x:message-type...bytes...'SGVsbG8='..."))
    = Return (trace, EmptyString)
    /\ includes EmptyString "Hello" = false.
Proof. eexists. split; [vm_compute; reflexivity | reflexivity]. Qed.

Lemma answer_hello_witness :
  exists trace,
    decodeResponse v8Message (bodyResponse (dq "x:message-type{'bytes':'SGVsbG8='}"))
    = Return (trace, "Hello").
Proof.
  refine (answer_hello v8Message "{" "bytes" ":" "}" _ _ _ eq_refl eq_refl);
    simpl; intuition discriminate.
Defined.

(** A body of two segments with a shorter trace than a body of one. *)
Lemma more_segments_fewer_lines :
  exists lines1 lines2 answer1 answer2,
    decodeOutput v8Message (bodyResponse "x") = Return (lines1, answer1)
    /\ decodeOutput v8Message (bodyResponse "bytes:message-typebytes")
       = Return (lines2, answer2)
    /\ List.length (Spec.segments "x") < List.length (Spec.segments "bytes:message-typebytes")
    /\ List.length lines2 < List.length lines1.
Proof.
  do 4 eexists. split; [vm_compute; reflexivity|]. split; [vm_compute; reflexivity|].
  split; vm_compute; lia.
Qed.

Lemma trace_follows_segments_witness :
  exists closing : list string,
    2 <= List.length closing <= 3
    /\ List.length
         ["Decoded response: x:message-typebytes";
          "Split Response: [" ++ dq "'x','bytes'" ++ "]";
          "length of split: 2"; "no bytes at index 0"; "x";
          "Lst Response: bytes"; "Bytes in last response"]
       = 3 + 2 * 1 + 0 + List.length closing.
Proof.
  destruct (trace_follows_segments v8Message "x:message-typebytes"
              ["Decoded response: x:message-typebytes";
               "Split Response: [" ++ dq "'x','bytes'" ++ "]";
               "length of split: 2"; "no bytes at index 0"; "x";
               "Lst Response: bytes"; "Bytes in last response"]
              EmptyString eq_refl) as [closing [_ [Hc Hn]]].
  exists closing. split; [exact Hc | exact Hn].
Defined.

Lemma answer_without_quotes_witness :
  ~ In quote (list_ascii_of_string "Hi").
Proof.
  exact (answer_without_quotes v8Message
           (bodyResponse (dq "x:message-type{'bytes':'IkhpIg=='}")) _ "Hi" eq_refl).
Defined.

End DecoderExamples.

(** ** The handler of index.ts *)
Section HandlerClaims.
Import Js Index.
Variable engineMessage : engineError -> string.

(** The address the handler calls for a session. *)
Local Abbreviation urlOf event :=
  ("https://bedrock-agent-runtime.ca-central-1.amazonaws.com/agents/RWRMVZLC8A"
     ++ "/agentAliases/JTKGKFHPKP/sessions/" ++ sessionId event ++ "/text").

(** The request the handler makes of an event. *)
Local Abbreviation callOf event :=
  {| url := urlOf event;
     method := "POST";
     body :=
       Some (stringifyObject
               [("inputText", stringifyString (question event));
                ("enableTrace", "true");
                ("endSession",
                 stringifyBool
                   match endSession event with
                   | Boolean true => true
                   | Text s => String.eqb s "true"
                   | _ => false
                   end)]);
     params := None;
     headers := Some [("content-type", "application/json");
                      ("accept", "application/json")];
     service := "bedrock";
     region := "ca-central-1" |}.

(** The handler, with its calls unfolded. *)
Lemma lambdaHandler_unfold (event : LambdaEvent) (w : World) :
  lambdaHandler engineMessage event w
  = (match (response <- network w (callOf event) ;;
            decodeResponse engineMessage response) with
     | Return (trace, answer) =>
         {| statusCode := 200;
            responseBody :=
              stringifyObject [("response", stringifyString trace);
                               ("trace_data", stringifyString answer)] |}
     | Throw error =>
         {| statusCode := 500;
            responseBody :=
              stringifyObject [("error", stringifyString (errorMessageOf error))] |}
     end,
     {| network := network w; issued := (issued w ++ [callOf event])%list |}).
Proof.
  change (lambdaHandler engineMessage event w)
    with (match (response <- network w (callOf event) ;;
                 decodeResponse engineMessage response) with
          | Return (trace, answer) =>
              ({| statusCode := 200;
                  responseBody :=
                    stringifyObject [("response", stringifyString trace);
                                     ("trace_data", stringifyString answer)] |},
               {| network := network w; issued := (issued w ++ [callOf event])%list |})
          | Throw error =>
              ({| statusCode := 500;
                  responseBody :=
                    stringifyObject
                      [("error", stringifyString (errorMessageOf error))] |},
               {| network := network w; issued := (issued w ++ [callOf event])%list |})
          end).
  destruct (response <- network w (callOf event) ;;
            decodeResponse engineMessage response) as [[t a]|e]; reflexivity.
Qed.

(** The one request the handler issues. *)
Lemma lambdaHandler_issues (event : LambdaEvent) (w : World) :
  issued (snd (lambdaHandler engineMessage event w))
  = (issued w ++ [callOf event])%list.
Proof. now rewrite lambdaHandler_unfold. Qed.

(** C6.  The handler issues one request, and its body has [endSession]
    true exactly when the event's [endSession] is the boolean [true] or the
    string "true". *)
Theorem endSession_of_request (event : LambdaEvent) (w : World) :
  exists (call : SigV4Call) (flag : bool),
    issued (snd (lambdaHandler engineMessage event w)) = (issued w ++ [call])%list
    /\ body call
       = Some (stringifyObject
                 [("inputText", stringifyString (question event));
                  ("enableTrace", "true");
                  ("endSession", stringifyBool flag)])
    /\ (flag = true
        <-> endSession event = Boolean true \/ endSession event = Text "true").
Proof.
  eexists. eexists. split; [apply lambdaHandler_issues|]. split; [reflexivity|].
  destruct (endSession event) as [|[|]|s]; split; intros H;
    try discriminate H; try (destruct H as [H|H]; discriminate H); auto.
  - right. apply String.eqb_eq in H. now subst s.
  - destruct H as [H|H]; [discriminate H|]. injection H as ->. reflexivity.
Qed.

(** What the handler returns, by what the call and the decoder do. *)
Lemma lambdaHandler_envelope (event : LambdaEvent) (w : World) (call : SigV4Call) :
  issued (snd (lambdaHandler engineMessage event w)) = (issued w ++ [call])%list ->
  fst (lambdaHandler engineMessage event w)
  = match (response <- network w call ;; decodeResponse engineMessage response) with
    | Return (trace, answer) =>
        {| statusCode := 200;
           responseBody :=
             stringifyObject [("response", stringifyString trace);
                              ("trace_data", stringifyString answer)] |}
    | Throw error =>
        {| statusCode := 500;
           responseBody :=
             stringifyObject [("error", stringifyString (errorMessageOf error))] |}
    end.
Proof.
  rewrite lambdaHandler_issues. intros E. apply app_inv_head in E.
  injection E as <-. now rewrite lambdaHandler_unfold.
Qed.


End HandlerClaims.

(** ** The handlers at given events *)
Section HandlerExamples.
Import Js.


(** In lambda.mjs the loop keeps the text of the last payload-bearing part,
    as it decodes, with no clean-up. *)
Remark mjs_keeps_last_payload :
  LambdaMjs.decodeResponse (bodyResponse (dq "{'bytes':'IkhpIg=='}:message-typeend"))
  = Return (dq "'Hi'").
Proof. reflexivity. Qed.

(** In lambda.mjs a payload-bearing part with no fourth quote-delimited
    field makes the decoder raise. *)
Remark mjs_raises_without_field :
  LambdaMjs.decodeResponse (bodyResponse (dq "x:message-type...bytes...'SGVsbG8='..."))
  = Throw (ErrorObj
      "Invalid character: the string to be decoded is not correctly encoded.").
Proof. reflexivity. Qed.

(** In lambda.mjs only the string "true" ends the session: the boolean
    [true] is sent on as [false]. *)
Remark mjs_boolean_true_not_read :
  map body
    (issued (snd (LambdaMjs.lambdaHandler (fun _ => Return None)
                    {| sessionId := "s1"; question := "Hi"; endSession := Boolean true |}
                    (answering (Return (bodyResponse EmptyString))))))
  = [Some (stringifyObject
             [("inputText", stringifyString "Hi");
              ("enableTrace", "true");
              ("endSession", "false")])].
Proof. reflexivity. Qed.

End HandlerExamples.

(** ** Further properties of the decoder of index.ts *)
Section DecoderMore.
Import Js Index.
Variable engineMessage : engineError -> string.

Local Abbreviation lastOf parts := (nth (List.length parts - 1) parts EmptyString).

Lemma Deleted_refl (s : string) : Deleted s s.
Proof. induction s; constructor; assumption. Qed.

Lemma Deleted_trans (a b c : string) : Deleted a b -> Deleted b c -> Deleted a c.
Proof.
  intros Hab Hbc. revert a Hab. induction Hbc as [|x t s H IH|x t s H IH]; intros a Hab.
  - exact Hab.
  - inversion Hab; subst; constructor; apply IH; assumption.
  - constructor. apply IH; assumption.
Qed.

(** Replacing by nothing only deletes. *)
Lemma replace_go_deletes (pat s : string) (k : nat) :
  Deleted (replace_go pat EmptyString k s) s.
Proof.
  revert k. induction s as [|c s IH]; intros k; [constructor|].
  cbn [replace_go]. destruct k as [|k].
  - destruct (prefix pat (String c s)); cbn [append]; constructor; apply IH.
  - constructor. apply IH.
Qed.

Lemma Deleted_length (t s : string) : Deleted t s -> String.length t <= String.length s.
Proof. induction 1; simpl; lia. Qed.

Lemma Deleted_chars (t s : string) (c : ascii) :
  Deleted t s -> In c (list_ascii_of_string t) -> In c (list_ascii_of_string s).
Proof.
  induction 1 as [|x t s H IH|x t s H IH]; simpl; intros Hin; auto.
  destruct Hin as [E|Hin]; auto.
Qed.

(** X1.  [decodeResponse] raises in two cases only, and always in them.
    Either the text of the response cannot be read, and the error of
    [text()] is what it raises; or the text is read, its last part has no
    "bytes", the marker and a quote-and-brace after it are found, the text
    between parses as an object, and its "text" is truthy and no string,
    and what it raises is the [TypeError] of the call of [replace]. *)
Theorem decodeResponse_raises_exactly (response : Response) (e : exn) :
  decodeResponse engineMessage response = Throw e
  <-> (text response = Throw e
       \/ exists body,
            text response = Return body
            /\ e = ErrorObj (engineMessage (NotAFunction "finalResponse.replace"))
            /\ Spec.payloadBearing (lastOf (Spec.segments body)) = false
            /\ exists startIdx endIdx members value,
                 indexOf body searchString = Some startIdx
                 /\ indexOf (substringFrom body (startIdx + String.length searchString))
                      (dq "'}") = Some endIdx
                 /\ JSON_parse
                      (substringTo
                         (substringFrom body (startIdx + String.length searchString))
                         (endIdx + 2))
                    = Some (JObj members)
                 /\ lookupMember members "text" = Some value
                 /\ truthy (Some value) = true
                 /\ (forall s, value <> JStr s)).
Proof.
  destruct response as [[body|e']].
  - change {| text := Return body |} with (bodyResponse body). cbn [text bodyResponse].
    split.
    + intros H. right. exists body. split; [reflexivity|].
      destruct (raises_only_after_marker engineMessage body e H)
        as [Hl (startIdx & endIdx & members & value & Hs & He & Hp & Hv & Ht & Hn)].
      pose proof (raises_after_marker engineMessage body startIdx endIdx members value
                    Hl Hs He Hp Hv Ht Hn) as R.
      rewrite R in H. injection H as <-.
      split; [reflexivity|]. split; [exact Hl|].
      exists startIdx, endIdx, members, value. repeat (split; [assumption|]). exact Hn.
    + intros [H|[body' [Eb [-> [Hl H]]]]]; [discriminate H|].
      injection Eb as <-.
      destruct H as (startIdx & endIdx & members & value & Hs & He & Hp & Hv & Ht & Hn).
      exact (raises_after_marker engineMessage body startIdx endIdx members value
               Hl Hs He Hp Hv Ht Hn).
  - cbn [text]. split.
    + intros H. left. unfold decodeResponse, decodeOutput in H. cbn [text bind] in H.
      now injection H as <-.
    + intros [H|[body [Eb _]]]; [|discriminate Eb].
      injection H as <-. reflexivity.
Qed.

(** X2.  The clean-up only deletes: what it returns is its input with some
    characters taken out, in the same order, so it is never longer and
    holds no character the input did not hold. *)
Theorem cleanUp_only_deletes (s t : string) :
  cleanUp engineMessage (JStr s) = Return t ->
  Deleted t s
  /\ String.length t <= String.length s
  /\ (forall c, In c (list_ascii_of_string t) -> In c (list_ascii_of_string s)).
Proof.
  rewrite cleanUp_string. intros E. injection E as <-.
  assert (D : Deleted (Spec.normalize s) s).
  { unfold Spec.normalize, replaceAll.
    eapply Deleted_trans; [apply replace_go_deletes|].
    eapply Deleted_trans; [apply replace_go_deletes|]. apply replace_go_deletes. }
  split; [exact D|]. split; [now apply Deleted_length|].
  intros c. now apply Deleted_chars.
Qed.

(** X3.  When the last part is payload-bearing and the text that its
    fourth quote-delimited field decodes to holds no double quote and
    neither noise substring, that text is the answer, unchanged. *)
Theorem clean_text_is_the_answer (body : string) :
  Spec.payloadBearing (lastOf (Spec.segments body)) = true ->
  (3 <? List.length (split (lastOf (Spec.segments body)) (dq "'")))%nat = true ->
  ~ In quote (list_ascii_of_string (Spec.payloadText (lastOf (Spec.segments body)))) ->
  includes (Spec.payloadText (lastOf (Spec.segments body))) "{input:{value:" = false ->
  includes (Spec.payloadText (lastOf (Spec.segments body))) ",source:null}}" = false ->
  exists trace,
    decodeResponse engineMessage (bodyResponse body)
    = Return (trace, Spec.payloadText (lastOf (Spec.segments body))).
Proof.
  intros Hl Hn Hq H1 H2.
  destruct (decodeOutput_last_bytes engineMessage body Hl) as [c E].
  rewrite decodeResponse_of_output, E, Hn, (normalize_fixed _ Hq H1 H2).
  eexists. reflexivity.
Qed.

End DecoderMore.

Section DecoderMoreExamples.
Import Js Index.

Lemma decodeResponse_raises_exactly_witness :
  decodeResponse v8Message (bodyResponse (dq "finalResponse':{'text':[1],'k':'v'}"))
  = Throw (ErrorObj "finalResponse.replace is not a function")
  /\ decodeResponse v8Message {| text := Throw (ErrorObj "body used already") |}
     = Throw (ErrorObj "body used already").
Proof.
  split.
  - apply (proj2 (decodeResponse_raises_exactly v8Message
                    (bodyResponse (dq "finalResponse':{'text':[1],'k':'v'}"))
                    (ErrorObj "finalResponse.replace is not a function"))).
    right. exists (dq "finalResponse':{'text':[1],'k':'v'}").
    split; [reflexivity|]. split; [reflexivity|]. split; [reflexivity|].
    exists 0, 18, [("text", JArr [JNum false 1 0]); ("k", JStr "v")], (JArr [JNum false 1 0]).
    do 5 (split; [reflexivity|]). intros s H. discriminate H.
  - apply (proj2 (decodeResponse_raises_exactly v8Message
                    {| text := Throw (ErrorObj "body used already") |}
                    (ErrorObj "body used already"))).
    left. reflexivity.
Defined.

Lemma cleanUp_only_deletes_witness :
  Deleted "Hi there" (dq "{input:{value:'Hi there',source:null}}").
Proof.
  exact (proj1 (cleanUp_only_deletes v8Message
                  (dq "{input:{value:'Hi there',source:null}}") "Hi there" eq_refl)).
Defined.

Lemma clean_text_is_the_answer_witness :
  exists trace,
    decodeResponse v8Message
      (bodyResponse (dq "x:message-type{'bytes':'SGVsbG8='}"))
    = Return (trace, "Hello").
Proof.
  refine (clean_text_is_the_answer v8Message
            (dq "x:message-type{'bytes':'SGVsbG8='}") eq_refl eq_refl _ eq_refl eq_refl).
  vm_compute. intuition discriminate.
Defined.

End DecoderMoreExamples.

(** ** The decoder and the handler of lambda.mjs *)
Section MjsFacts.
Import Js LambdaMjs.
Variable messageWritten : string -> result (option string).

Lemma base64_decode_throws (s : string) (e : exn) :
  base64_decode s = Throw e -> e = invalidCharacter.
Proof.
  unfold base64_decode.
  destruct (digits _) as [l|]; [destruct (_ =? 1)%nat|]; intros H;
    try discriminate H; now injection H as <-.
Qed.

Lemma forParts_throws (rest : list string) (finalResponse : string) (e : exn) :
  forParts finalResponse rest = Throw e -> e = invalidCharacter.
Proof.
  revert finalResponse. induction rest as [|part rest IH]; intros init; cbn [forParts].
  - discriminate.
  - destruct (includes part "bytes"); [|apply IH].
    destruct (base64_decode _) as [d|e'] eqn:E; cbn [bind].
    + apply IH.
    + intros H. injection H as <-. exact (base64_decode_throws _ _ E).
Qed.

Lemma forParts_app (a b : list string) (finalResponse : string) :
  forParts finalResponse (a ++ b)
  = (r <- forParts finalResponse a ;; forParts r b).
Proof.
  revert finalResponse. induction a as [|part a IH]; intros init; [reflexivity|].
  cbn [app forParts]. destruct (includes part "bytes"); [|apply IH].
  destruct (base64_decode _) as [d|e]; cbn [bind]; [apply IH | reflexivity].
Qed.

Lemma forParts_without_payload (rest : list string) (finalResponse : string) :
  Forall (fun part => Spec.payloadBearing part = false) rest ->
  forParts finalResponse rest = Return finalResponse.
Proof.
  induction 1 as [|part rest H _ IH]; [reflexivity|].
  cbn [forParts]. unfold Spec.payloadBearing in H. now rewrite H.
Qed.

Lemma forParts_decoding (rest : list string) (finalResponse : string) :
  Forall (fun part =>
            Spec.payloadBearing part = true ->
            exists t, base64_decode (elementString (split part (dq "'")) 3) = Return t)
         rest ->
  exists r, forParts finalResponse rest = Return r.
Proof.
  intros H. revert finalResponse.
  induction H as [|part rest H _ IH]; intros init; [now exists init|].
  cbn [forParts]. unfold Spec.payloadBearing in H.
  destruct (includes part "bytes"); [|apply IH].
  destruct (H eq_refl) as [t ->]. cbn [bind]. apply IH.
Qed.

Lemma forParts_undecodable (rest : list string) (finalResponse part : string) :
  In part rest ->
  Spec.payloadBearing part = true ->
  base64_decode (elementString (split part (dq "'")) 3) = Throw invalidCharacter ->
  forParts finalResponse rest = Throw invalidCharacter.
Proof.
  intros Hin Hp Hd. revert finalResponse.
  induction rest as [|part' rest IH]; intros init; [destruct Hin|].
  cbn [forParts]. destruct Hin as [->|Hin].
  - unfold Spec.payloadBearing in Hp. now rewrite Hp, Hd.
  - destruct (includes part' "bytes"); [|now apply IH].
    destruct (base64_decode (elementString (split part' (dq "'")) 3)) as [d|e] eqn:E;
      cbn [bind]; [now apply IH|].
    now rewrite (base64_decode_throws _ _ E).
Qed.

(** X4.  In lambda.mjs the answer is the decoding of the fourth
    quote-delimited field of the last payload-bearing part, as long as the
    payload-bearing parts before it decode; it is the empty string when no
    part is payload-bearing. *)
Theorem mjs_answer_of_last_payload (body : string) :
  (forall before last after,
     Spec.segments body = (before ++ last :: after)%list ->
     Spec.payloadBearing last = true ->
     Forall (fun part => Spec.payloadBearing part = false) after ->
     Forall (fun part =>
               Spec.payloadBearing part = true ->
               exists t, base64_decode (elementString (split part (dq "'")) 3) = Return t)
            before ->
     decodeResponse (bodyResponse body)
     = base64_decode (elementString (split last (dq "'")) 3))
  /\ (Forall (fun part => Spec.payloadBearing part = false) (Spec.segments body) ->
      decodeResponse (bodyResponse body) = Return EmptyString).
Proof.
  unfold decodeResponse, Spec.segments. cbn [bind text bodyResponse]. split.
  - intros before last after E Hl Ha Hb. rewrite E, forParts_app.
    destruct (forParts_decoding before EmptyString Hb) as [r ->]. cbn [bind forParts].
    unfold Spec.payloadBearing in Hl. rewrite Hl.
    destruct (base64_decode _) as [d|e]; cbn [bind]; [|reflexivity].
    now apply forParts_without_payload.
  - now apply forParts_without_payload.
Qed.

(** X5.  In lambda.mjs one payload-bearing part whose field does not
    decode makes [decodeResponse] raise, wherever the part stands; a part
    with fewer than four quote-delimited fields is such a part, its field
    reading as "undefined". *)
Theorem mjs_raises_on_undecodable_part (body part : string) :
  In part (Spec.segments body) ->
  Spec.payloadBearing part = true ->
  (base64_decode (elementString (split part (dq "'")) 3) = Throw invalidCharacter ->
   decodeResponse (bodyResponse body) = Throw invalidCharacter)
  /\ (List.length (split part (dq "'")) <= 3 ->
      decodeResponse (bodyResponse body) = Throw invalidCharacter).
Proof.
  intros Hin Hp.
  assert (G : base64_decode (elementString (split part (dq "'")) 3) = Throw invalidCharacter ->
              decodeResponse (bodyResponse body) = Throw invalidCharacter).
  { intros Hd. unfold decodeResponse. cbn [bind text bodyResponse].
    exact (forParts_undecodable _ EmptyString part Hin Hp Hd). }
  split; [exact G|]. intros Hs. apply G. unfold elementString.
  replace (nth_error (split part (dq "'")) 3) with (@None string); [reflexivity|].
  symmetry. now apply nth_error_None.
Qed.

(** The request the handler of lambda.mjs makes of an event. *)
Local Abbreviation mjsCallOf event :=
  {| url :=
       "https://bedrock-agent-runtime.ca-central-1.amazonaws.com/agents/RWRMVZLC8A"
         ++ "/agentAliases/JTKGKFHPKP/sessions/" ++ sessionId event ++ "/text";
     method := "POST";
     body :=
       Some (stringifyObject
               [("inputText", stringifyString (question event));
                ("enableTrace", "true");
                ("endSession",
                 stringifyBool
                   match endSession event with
                   | Text s => String.eqb s "true"
                   | _ => false
                   end)]);
     params := None;
     headers := Some [("content-type", "application/json");
                      ("accept", "application/json")];
     service := "bedrock";
     region := "ca-central-1" |}.

(** The handler of lambda.mjs, with its calls unfolded. *)
Lemma mjs_lambdaHandler_unfold (event : LambdaEvent) (w : World) :
  lambdaHandler messageWritten event w
  = (match (response <- network w (mjsCallOf event) ;; decodeResponse response) with
     | Return answer =>
         Return {| statusCode := 200;
                   responseBody :=
                     stringifyObject [("response", stringifyString answer)] |}
     | Throw error =>
         body <- errorBody messageWritten error ;;
         Return {| statusCode := 500; responseBody := body |}
     end,
     {| network := network w; issued := (issued w ++ [mjsCallOf event])%list |}).
Proof.
  destruct event as [sid q es].
  destruct es as [|b|s];
    match goal with |- ?l = (match ?m with Return a => ?x | Throw e => ?y end, ?w') =>
      change l with (match m with Return a => (x, w') | Throw e => (y, w') end);
      destruct m; reflexivity
    end.
Qed.

(** X6.  The handler of lambda.mjs issues one request, and its body has
    [endSession] true exactly when the event's [endSession] is the string
    "true": a boolean, [true] too, is sent on as [false]. *)
Theorem mjs_endSession_of_request (event : LambdaEvent) (w : World) :
  exists (call : SigV4Call) (flag : bool),
    issued (snd (lambdaHandler messageWritten event w)) = (issued w ++ [call])%list
    /\ body call
       = Some (stringifyObject
                 [("inputText", stringifyString (question event));
                  ("enableTrace", "true");
                  ("endSession", stringifyBool flag)])
    /\ (flag = true <-> endSession event = Text "true").
Proof.
  rewrite mjs_lambdaHandler_unfold. cbn [snd issued].
  eexists. eexists. split; [reflexivity|]. split; [reflexivity|].
  destruct (endSession event) as [|b|s]; split; intros H; try discriminate H.
  - apply String.eqb_eq in H. now subst s.
  - injection H as ->. reflexivity.
Qed.

(** X7.  The handler of lambda.mjs by what the call and the decoder do.
    When both succeed it returns status 200 with the answer under
    "response".  When either raises an [Error] it returns status 500 with
    the message under "error".  When either raises a value that is no
    [Error], the message is read off it all the same: the handler itself
    rejects when the reading raises, as for [null]; it returns status 500
    with the body of an empty object when the value has no message, and
    with what is written for its message under "error" when it has one. *)
Theorem mjs_envelope_of_outcome (event : LambdaEvent) (w : World) :
  exists call : SigV4Call,
    issued (snd (lambdaHandler messageWritten event w)) = (issued w ++ [call])%list
    /\ (forall response answer,
          network w call = Return response ->
          decodeResponse response = Return answer ->
          fst (lambdaHandler messageWritten event w)
          = Return {| statusCode := 200;
                      responseBody :=
                        stringifyObject [("response", stringifyString answer)] |})
    /\ (forall error,
          network w call = Throw error
          \/ (exists response,
                network w call = Return response
                /\ decodeResponse response = Throw error) ->
          (forall message,
             error = ErrorObj message ->
             fst (lambdaHandler messageWritten event w)
             = Return {| statusCode := 500;
                         responseBody :=
                           stringifyObject [("error", stringifyString message)] |})
          /\ (forall shown raised,
                error = NonError shown ->
                messageWritten shown = Throw raised ->
                fst (lambdaHandler messageWritten event w) = Throw raised)
          /\ (forall shown,
                error = NonError shown ->
                messageWritten shown = Return None ->
                fst (lambdaHandler messageWritten event w)
                = Return {| statusCode := 500; responseBody := "{}" |})
          /\ (forall shown value,
                error = NonError shown ->
                messageWritten shown = Return (Some value) ->
                fst (lambdaHandler messageWritten event w)
                = Return {| statusCode := 500;
                            responseBody := stringifyObject [("error", value)] |})).
Proof.
  rewrite mjs_lambdaHandler_unfold. cbn [fst snd issued].
  eexists. split; [reflexivity|]. split.
  - intros response answer H1 H2. rewrite H1. cbn [bind]. now rewrite H2.
  - intros error H.
    assert (E : (response <- network w (mjsCallOf event) ;; decodeResponse response)
                = Throw error).
    { destruct H as [H|[response [H1 H2]]]; [now rewrite H|].
      rewrite H1. cbn [bind]. exact H2. }
    rewrite E. unfold errorBody. repeat split.
    + intros message ->. reflexivity.
    + intros shown raised -> Hm. now rewrite Hm.
    + intros shown -> Hm. now rewrite Hm.
    + intros shown value -> Hm. now rewrite Hm.
Qed.

End MjsFacts.

(** ** The two base64 decoders *)
Section Base64Facts.
Import Js LambdaMjs.

Lemma space_is_no_digit (c : ascii) :
  (let n := N_of_ascii c in
   ((n =? 9) || (n =? 10) || (n =? 12) || (n =? 13) || (n =? 32))%N) = true ->
  Ascii.eqb c "=" = false /\ unbase64 c = None.
Proof.
  destruct c as [[] [] [] [] [] [] [] []]; cbn; intros H;
    (discriminate H || (split; reflexivity)).
Qed.

Lemma table_digit (c : ascii) (v : N) :
  tableIndex c = Some v -> Ascii.eqb c "=" = false /\ unbase64 c = Some v.
Proof.
  destruct c as [[] [] [] [] [] [] [] []]; cbn; intros H;
    (discriminate H || (injection H as <-; split; reflexivity)).
Qed.

Lemma sextetsOfBytes_dropSpaces (s : string) :
  sextetsOfBytes (dropSpaces s) = sextetsOfBytes s.
Proof.
  induction s as [|c s IH]; [reflexivity|]. cbn [dropSpaces sextetsOfBytes].
  match goal with |- context [if ?b then dropSpaces s else _] => destruct b eqn:E end.
  - destruct (space_is_no_digit c E) as [-> ->]. exact IH.
  - cbn [sextetsOfBytes]. now rewrite IH.
Qed.

Lemma sextetsOfBytes_dropPadding (s : string) :
  sextetsOfBytes (dropPadding s) = sextetsOfBytes s.
Proof.
  induction s as [|c s IH]; [reflexivity|]. cbn [dropPadding].
  destruct (String.eqb (String c s) "=" || String.eqb (String c s) "==") eqn:E.
  - apply orb_true_iff in E as [E|E]; apply String.eqb_eq in E; rewrite E; reflexivity.
  - cbn [sextetsOfBytes]. now rewrite IH.
Qed.

Lemma digits_sextetsOfBytes (s : string) (l : list N) :
  digits s = Some l -> sextetsOfBytes s = l.
Proof.
  revert l. induction s as [|c s IH]; intros l; cbn [digits sextetsOfBytes].
  - intros E. now injection E as <-.
  - destruct (tableIndex c) as [v|] eqn:Ev; [|discriminate].
    destruct (digits s) as [l'|]; [|discriminate].
    intros E. injection E as <-. destruct (table_digit c v Ev) as [-> ->].
    now rewrite (IH l' eq_refl).
Qed.

(** A text of ASCII characters is its own code units, and Node reads its
    bytes as they are. *)
Lemma lowBytes_ascii (s : string) :
  Forall (fun c => (N_of_ascii c < 128)%N) (list_ascii_of_string s) ->
  lowBytes s = s.
Proof.
  unfold lowBytes. induction s as [|c s IH]; [reflexivity|].
  cbn [list_ascii_of_string]. intros H. inversion H as [|x l Hc Hs]; subst.
  cbn [codeUnits]. apply N.ltb_lt in Hc as Hb. rewrite Hb.
  cbn [map string_of_list_ascii]. rewrite (IH Hs).
  rewrite N.mod_small by lia. now rewrite ascii_N_embedding.
Qed.

Lemma table_digit_ascii (c : ascii) (v : N) :
  tableIndex c = Some v -> (N_of_ascii c < 128)%N.
Proof.
  destruct c as [[] [] [] [] [] [] [] []]; cbn; intros H;
    (discriminate H || reflexivity).
Qed.

Lemma space_ascii (c : ascii) :
  (let n := N_of_ascii c in
   ((n =? 9) || (n =? 10) || (n =? 12) || (n =? 13) || (n =? 32))%N) = true ->
  (N_of_ascii c < 128)%N.
Proof.
  destruct c as [[] [] [] [] [] [] [] []]; cbn; intros H;
    (discriminate H || reflexivity).
Qed.

Lemma digits_ascii (s : string) (l : list N) :
  digits s = Some l -> Forall (fun c => (N_of_ascii c < 128)%N) (list_ascii_of_string s).
Proof.
  revert l. induction s as [|c s IH]; intros l; cbn [digits list_ascii_of_string].
  - constructor.
  - destruct (tableIndex c) as [v|] eqn:Ev; [|discriminate].
    destruct (digits s) as [l'|]; [|discriminate].
    intros _. constructor; [exact (table_digit_ascii c v Ev) | exact (IH l' eq_refl)].
Qed.

Lemma dropPadding_ascii (s : string) :
  Forall (fun c => (N_of_ascii c < 128)%N) (list_ascii_of_string (dropPadding s)) ->
  Forall (fun c => (N_of_ascii c < 128)%N) (list_ascii_of_string s).
Proof.
  induction s as [|c s IH]; [constructor|]. cbn [dropPadding].
  destruct (String.eqb (String c s) "=" || String.eqb (String c s) "==") eqn:E.
  - intros _. apply orb_true_iff in E as [E|E]; apply String.eqb_eq in E; rewrite E;
      repeat constructor.
  - cbn [list_ascii_of_string]. intros H. inversion H; subst.
    constructor; [assumption | now apply IH].
Qed.

Lemma dropSpaces_ascii (s : string) :
  Forall (fun c => (N_of_ascii c < 128)%N) (list_ascii_of_string (dropSpaces s)) ->
  Forall (fun c => (N_of_ascii c < 128)%N) (list_ascii_of_string s).
Proof.
  induction s as [|c s IH]; [constructor|]. cbn [dropSpaces list_ascii_of_string].
  match goal with |- context [if ?b then dropSpaces s else _] => destruct b eqn:E end.
  - intros H. constructor; [exact (space_ascii c E) | now apply IH].
  - cbn [list_ascii_of_string]. intros H. inversion H; subst.
    constructor; [assumption | now apply IH].
Qed.

(** Node's decoder at characters above U+00FF: U+0141 is read by its low
    byte as the digit A, U+013D as the [=] that ends the decoding, and so is
    the first surrogate of U+1F600. *)
Remark buffer_reads_low_bytes :
  base64Text ("SGk" ++ utf8Encode 321) = "Hi" ++ String (ascii_of_nat 0) EmptyString
  /\ base64Text ("SG" ++ utf8Encode 317 ++ "k") = "H"
  /\ base64Text (utf8Encode 128512 ++ "SGk") = EmptyString.
Proof. repeat split; reflexivity. Qed.

Lemma ascii_bytes_text (bs : list N) :
  Forall (fun b => (b < 128)%N) bs ->
  utf8_go 0 0 0 EmptyString bs = binaryString bs.
Proof.
  induction 1 as [|b bs Hb _ IH]; [reflexivity|].
  cbn [utf8_go binaryString]. unfold utf8Encode.
  apply N.ltb_lt in Hb. rewrite Hb. cbn [append]. now rewrite IH.
Qed.

(** X8.  Whenever the decoder of the package base-64 accepts a text, it
    reads from it the bytes that Node's [Buffer] reads; when these are all
    below 128, lambda.mjs and index.ts decode the same text from a field. *)
Theorem decoders_agree (s t : string) :
  base64_decode s = Return t ->
  t = binaryString (bytesOfSextets (sextets s))
  /\ (Forall (fun b => (b < 128)%N) (bytesOfSextets (sextets s)) -> base64Text s = t).
Proof.
  unfold base64_decode. intros H.
  assert (E : t = binaryString (bytesOfSextets (sextets s))).
  { unfold sextets.
    destruct (String.length (dropSpaces s) mod 4 =? 0)%nat.
    - destruct (digits (dropPadding (dropSpaces s))) as [l|] eqn:Ed; [|discriminate H].
      destruct (_ =? 1)%nat; [discriminate H|]. injection H as <-.
      rewrite (lowBytes_ascii s)
        by (apply dropSpaces_ascii, dropPadding_ascii; exact (digits_ascii _ _ Ed)).
      apply digits_sextetsOfBytes in Ed.
      now rewrite sextetsOfBytes_dropPadding, sextetsOfBytes_dropSpaces in Ed; subst l.
    - destruct (digits (dropSpaces s)) as [l|] eqn:Ed; [|discriminate H].
      destruct (_ =? 1)%nat; [discriminate H|]. injection H as <-.
      rewrite (lowBytes_ascii s) by (apply dropSpaces_ascii; exact (digits_ascii _ _ Ed)).
      apply digits_sextetsOfBytes in Ed.
      now rewrite sextetsOfBytes_dropSpaces in Ed; subst l. }
  split; [exact E|]. intros Ha. unfold base64Text. now rewrite E, ascii_bytes_text.
Qed.

End Base64Facts.

(** ** The parts of a response *)
Section SegmentFacts.
Import Js.

Lemma prefix_rest (p s : string) :
  prefix p s = true -> p ++ substringFrom s (String.length p) = s.
Proof.
  revert s. induction p as [|c p IH]; intros s H; [now destruct s|].
  destruct s as [|c' s]; [discriminate H|]. cbn [prefix] in H.
  destruct (ascii_dec c c') as [<-|]; [|discriminate H].
  cbn [String.length substringFrom append]. now rewrite IH.
Qed.

Lemma prefix_longer (a b r : string) : prefix a b = true -> prefix a (b ++ r) = true.
Proof.
  revert b. induction a as [|c a IH]; intros b H; [apply prefix_empty|].
  destruct b as [|c' b]; [discriminate H|]. cbn [prefix append] in *.
  destruct (ascii_dec c c'); [now apply IH | discriminate H].
Qed.

(** The pieces, put together again with the separator, are the text that
    was scanned. *)
Lemma split_go_join (c0 : ascii) (sep0 s : string) (k : nat) :
  join (fst (split_go (String c0 sep0) k s) :: snd (split_go (String c0 sep0) k s))
       (String c0 sep0)
  = substringFrom s k.
Proof.
  revert k. induction s as [|c s IH]; intros k.
  - now destruct k.
  - cbn [split_go]. destruct k as [|k]; [|cbn [substringFrom]; apply IH].
    cbn [substringFrom]. destruct (prefix (String c0 sep0) (String c s)) eqn:Hp.
    + specialize (IH (String.length (String c0 sep0) - 1)).
      destruct (split_go (String c0 sep0) (String.length (String c0 sep0) - 1) s)
        as [p ps].
      cbn [fst snd] in *. unfold join in *.
      change (String.concat (String c0 sep0) (EmptyString :: p :: ps))
        with (String c0 sep0 ++ String.concat (String c0 sep0) (p :: ps)).
      rewrite IH. cbn [String.length Nat.sub]. rewrite Nat.sub_0_r.
      exact (prefix_rest _ _ Hp).
    + specialize (IH 0).
      destruct (split_go (String c0 sep0) 0 s) as [p ps]. cbn [fst snd] in *.
      unfold join in *. cbn [substringFrom] in IH.
      assert (Es : substringFrom s 0 = s) by now destruct s.
      rewrite Es in IH. rewrite <- IH.
      destruct ps; reflexivity.
Qed.

(** The piece that is open is the head of the text scanned. *)
Lemma split_go_head (sep s : string) : exists r, s = fst (split_go sep 0 s) ++ r.
Proof.
  induction s as [|c s [r IH]]; [now exists EmptyString|].
  cbn [split_go]. destruct (prefix sep (String c s)).
  - now exists (String c s).
  - destruct (split_go sep 0 s) as [p ps]. cbn [fst] in *. exists r.
    cbn [append]. now rewrite <- IH.
Qed.

(** No piece holds the separator. *)
Lemma split_go_free (c0 : ascii) (sep0 s : string) (k : nat) :
  Forall (fun piece => includes piece (String c0 sep0) = false)
    (fst (split_go (String c0 sep0) k s) :: snd (split_go (String c0 sep0) k s)).
Proof.
  revert k. induction s as [|c s IH]; intros k.
  - cbn. constructor; [reflexivity | constructor].
  - cbn [split_go]. destruct k as [|k]; [|apply IH].
    destruct (prefix (String c0 sep0) (String c s)) eqn:Hp.
    + specialize (IH (String.length (String c0 sep0) - 1)).
      destruct (split_go (String c0 sep0) (String.length (String c0 sep0) - 1) s)
        as [p ps].
      cbn [fst snd] in *. constructor; [reflexivity | exact IH].
    + specialize (IH 0). destruct (split_go_head (String c0 sep0) s) as [r Er].
      destruct (split_go (String c0 sep0) 0 s) as [p ps]. cbn [fst snd] in *.
      inversion IH as [|x l Hx Hl]; subst. constructor; [|exact Hl].
      rewrite includes_cons, Hx, orb_false_r.
      destruct (prefix (String c0 sep0) (String c p)) eqn:Hq; [|reflexivity].
      apply (prefix_longer _ _ r) in Hq. cbn [append] in Hq.
      rewrite Hq in Hp. discriminate Hp.
Qed.

(** X9.  The split of a response loses nothing and leaves the marker in no
    part: the parts joined by ":message-type" are the response text, and
    none of them contains ":message-type". *)
Theorem parts_partition_the_response (responseText : string) :
  join (split responseText ":message-type") ":message-type" = responseText
  /\ Forall (fun part => includes part ":message-type" = false)
       (split responseText ":message-type").
Proof.
  unfold split. split.
  - pose proof (split_go_join ":" "message-type" responseText 0) as H.
    destruct (split_go ":message-type" 0 responseText) as [p ps]. cbn [fst snd] in H.
    rewrite H. now destruct responseText.
  - pose proof (split_go_free ":" "message-type" responseText 0) as H.
    now destruct (split_go ":message-type" 0 responseText) as [p ps].
Qed.

End SegmentFacts.

(** ** What [JSON.parse] reads back from [JSON.stringify] *)
Section RoundTripFacts.
Import Js.

Lemma lexRun_app (a b : string) (st : lexState) :
  lexRun st (a ++ b)
  = match lexRun st a with
    | Some (st', t1) =>
        match lexRun st' b with
        | Some (st'', t2) => Some (st'', (t1 ++ t2)%list)
        | None => None
        end
    | None => None
    end.
Proof.
  revert st. induction a as [|c a IH]; intros st; cbn [append lexRun].
  - destruct (lexRun st b) as [[st' t]|]; reflexivity.
  - destruct (lexStep st c) as [[st1 t0]|]; [|reflexivity].
    rewrite IH. destruct (lexRun st1 a) as [[st2 t1]|]; [|reflexivity].
    destruct (lexRun st2 b) as [[st3 t2]|]; [|reflexivity].
    now rewrite app_assoc.
Qed.

Lemma lex_of_lexRun (s : string) (st : lexState) (toks : list token) :
  lexRun st s = Some (LTop, toks) -> lex st s = Some toks.
Proof.
  revert st toks. induction s as [|c s IH]; intros st toks; cbn [lexRun lex].
  - intros E. injection E as -> <-. reflexivity.
  - destruct (lexStep st c) as [[st1 t0]|]; [|discriminate].
    destruct (lexRun st1 s) as [[st2 t1]|] eqn:E1; [|discriminate].
    intros E. injection E as -> <-. now rewrite (IH _ _ E1).
Qed.

Lemma quoteJSON_go_three (c c2 c3 : ascii) (s3 : string) :
  quoteJSON_go (String c (String c2 (String c3 s3)))
  = if ((N_of_ascii c =? 237)%N && between 160 (N_of_ascii c2) 191)
    then unicodeEscape (53248 + (N_of_ascii c2 - 128) * 64 + (N_of_ascii c3 - 128))
           ++ quoteJSON_go s3
    else escapeBefore c (quoteJSON_go (String c2 (String c3 s3))).
Proof. reflexivity. Qed.

Lemma escapeBefore_escapeOf (c : ascii) (rest : string) :
  escapeBefore c rest = escapeOf c ++ rest.
Proof. destruct c as [[] [] [] [] [] [] [] []]; reflexivity. Qed.

Lemma quote_step (c : ascii) (s : string) :
  noSurrogate (String c s) = true ->
  quoteJSON_go (String c s) = escapeOf c ++ quoteJSON_go s.
Proof.
  intros H. destruct s as [|c2 [|c3 s3]].
  - rewrite <- escapeBefore_escapeOf. reflexivity.
  - rewrite <- escapeBefore_escapeOf. reflexivity.
  - rewrite quoteJSON_go_three, <- escapeBefore_escapeOf.
    cbn [noSurrogate] in H. apply andb_true_iff in H as [H _].
    apply negb_true_iff in H. now rewrite H.
Qed.

Lemma lexRun_escape (c : ascii) (acc : string) :
  lexRun (LStr acc None) (escapeOf c) = Some (LStr (acc ++ String c EmptyString) None, []).
Proof. destruct c as [[] [] [] [] [] [] [] []]; reflexivity. Qed.

Lemma noSurrogate_tail (c : ascii) (s : string) :
  noSurrogate (String c s) = true -> noSurrogate s = true.
Proof. cbn [noSurrogate]. intros H. now apply andb_true_iff in H. Qed.

Lemma lexRun_quoted (s acc : string) :
  noSurrogate s = true ->
  lexRun (LStr acc None) (quoteJSON_go s) = Some (LStr (acc ++ s) None, []).
Proof.
  revert acc. induction s as [|c s IH]; intros acc H.
  - cbn. f_equal. f_equal. f_equal. induction acc; simpl; congruence.
  - rewrite (quote_step c s H), lexRun_app, lexRun_escape.
    rewrite (IH _ (noSurrogate_tail c s H)), append_assoc. reflexivity.
Qed.

(** A string that was written is read as that string. *)
Lemma lexRun_string (s : string) :
  noSurrogate s = true -> lexRun LTop (stringifyString s) = Some (LTop, [TString s]).
Proof.
  intros H. unfold stringifyString. cbn [lexRun].
  change (lexStep LTop quote) with (Some (LStr EmptyString None, @nil token)).
  cbn iota. rewrite lexRun_app, (lexRun_quoted s EmptyString H). cbn [append].
  reflexivity.
Qed.

Lemma lexRun_cons (st : lexState) (c : ascii) (rest : string) :
  lexRun st (String c rest)
  = match lexStep st c with
    | Some (st', toks) =>
        match lexRun st' rest with
        | Some (st'', toks') => Some (st'', (toks ++ toks')%list)
        | None => None
        end
    | None => None
    end.
Proof. reflexivity. Qed.

(** A string written before more text is read as that string, and the
    lexer goes on with the text. *)
Lemma lexRun_string_then (s rest : string) :
  noSurrogate s = true ->
  lexRun LTop (stringifyString s ++ rest)
  = match lexRun LTop rest with
    | Some (st, toks) => Some (st, TString s :: toks)
    | None => None
    end.
Proof. intros H. now rewrite lexRun_app, (lexRun_string s H). Qed.

(** An object of two strings is read back as it was written. *)
Lemma parse_two_strings (k1 v1 k2 v2 : string) :
  noSurrogate k1 = true -> noSurrogate v1 = true ->
  noSurrogate k2 = true -> noSurrogate v2 = true ->
  JSON_parse (stringifyObject [(k1, stringifyString v1); (k2, stringifyString v2)])
  = Some (JObj [(k1, JStr v1); (k2, JStr v2)]).
Proof.
  intros Hk1 Hv1 Hk2 Hv2. unfold JSON_parse.
  rewrite (lex_of_lexRun _ LTop
             [TLBrace; TString k1; TColon; TString v1; TComma;
              TString k2; TColon; TString v2; TRBrace]); [reflexivity|].
  unfold stringifyObject, join. cbn [map fst snd String.concat].
  rewrite !append_assoc. cbn [append].
  rewrite lexRun_cons. change (lexStep LTop "{") with (Some (LTop, [TLBrace])). cbn iota.
  rewrite (lexRun_string_then k1 _ Hk1), lexRun_cons.
  change (lexStep LTop ":") with (Some (LTop, [TColon])). cbn iota.
  rewrite (lexRun_string_then v1 _ Hv1), lexRun_cons.
  change (lexStep LTop ",") with (Some (LTop, [TComma])). cbn iota.
  rewrite (lexRun_string_then k2 _ Hk2), lexRun_cons.
  change (lexStep LTop ":") with (Some (LTop, [TColon])). cbn iota.
  rewrite (lexRun_string_then v2 _ Hv2). reflexivity.
Qed.

(** An object of one string is read back as it was written. *)
Lemma parse_one_string (k v : string) :
  noSurrogate k = true -> noSurrogate v = true ->
  JSON_parse (stringifyObject [(k, stringifyString v)]) = Some (JObj [(k, JStr v)]).
Proof.
  intros Hk Hv. unfold JSON_parse.
  rewrite (lex_of_lexRun _ LTop [TLBrace; TString k; TColon; TString v; TRBrace]);
    [reflexivity|].
  unfold stringifyObject, join. cbn [map fst snd String.concat].
  rewrite !append_assoc. cbn [append].
  rewrite lexRun_cons. change (lexStep LTop "{") with (Some (LTop, [TLBrace])). cbn iota.
  rewrite (lexRun_string_then k _ Hk), lexRun_cons.
  change (lexStep LTop ":") with (Some (LTop, [TColon])). cbn iota.
  rewrite (lexRun_string_then v _ Hv). reflexivity.
Qed.

(** The body of a request is read back as it was written. *)
Lemma parse_request (question : string) (flag : bool) :
  noSurrogate question = true ->
  JSON_parse
    (stringifyObject
       [("inputText", stringifyString question);
        ("enableTrace", stringifyBool true);
        ("endSession", stringifyBool flag)])
  = Some (JObj [("inputText", JStr question);
                ("enableTrace", JBool true);
                ("endSession", JBool flag)]).
Proof.
  intros Hq. unfold JSON_parse.
  rewrite (lex_of_lexRun _ LTop
             [TLBrace; TString "inputText"; TColon; TString question; TComma;
              TString "enableTrace"; TColon; TScalar (JBool true); TComma;
              TString "endSession"; TColon; TScalar (JBool flag); TRBrace]);
    [reflexivity|].
  unfold stringifyObject, join. cbn [map fst snd String.concat].
  rewrite !append_assoc. cbn [append].
  rewrite lexRun_cons. change (lexStep LTop "{") with (Some (LTop, [TLBrace])). cbn iota.
  rewrite (lexRun_string_then "inputText" _ eq_refl), lexRun_cons.
  change (lexStep LTop ":") with (Some (LTop, [TColon])). cbn iota.
  rewrite (lexRun_string_then question _ Hq).
  destruct flag; reflexivity.
Qed.

End RoundTripFacts.

(** ** What the handler of index.ts writes is read back *)
Section HandlerRoundTrip.
Import Js Index.
Variable engineMessage : engineError -> string.

(** X10.  The body of the envelope is JSON that reads back as it was
    written: on success an object whose "response" is the trace and whose
    "trace_data" is the answer, on failure an object whose "error" is the
    message, for texts that hold no surrogate code unit. *)
Theorem envelope_parses_back (event : LambdaEvent) (w : World) :
  exists call : SigV4Call,
    issued (snd (lambdaHandler engineMessage event w)) = (issued w ++ [call])%list
    /\ (forall response trace answer,
          network w call = Return response ->
          decodeResponse engineMessage response = Return (trace, answer) ->
          noSurrogate trace = true ->
          noSurrogate answer = true ->
          JSON_parse (responseBody (fst (lambdaHandler engineMessage event w)))
          = Some (JObj [("response", JStr trace); ("trace_data", JStr answer)]))
    /\ (forall error,
          (response <- network w call ;; decodeResponse engineMessage response)
          = Throw error ->
          noSurrogate (errorMessageOf error) = true ->
          JSON_parse (responseBody (fst (lambdaHandler engineMessage event w)))
          = Some (JObj [("error", JStr (errorMessageOf error))])).
Proof.
  eexists. split; [apply lambdaHandler_issues|]. split.
  - intros response trace answer H1 H2 Ht Ha.
    rewrite (lambdaHandler_envelope engineMessage event w _
               (lambdaHandler_issues engineMessage event w)), H1.
    cbn [bind]. rewrite H2. cbn [responseBody].
    now apply parse_two_strings.
  - intros error H Hm.
    rewrite (lambdaHandler_envelope engineMessage event w _
               (lambdaHandler_issues engineMessage event w)), H.
    cbn [responseBody]. now apply parse_one_string.
Qed.

(** X11.  The body of the request the handler issues is JSON that reads
    back as an object whose "inputText" is the question, whose
    "enableTrace" is [true] and whose "endSession" is the flag, for a
    question that holds no surrogate code unit. *)
Theorem request_parses_back (event : LambdaEvent) (w : World) :
  noSurrogate (question event) = true ->
  exists (call : SigV4Call) (text : string),
    issued (snd (lambdaHandler engineMessage event w)) = (issued w ++ [call])%list
    /\ body call = Some text
    /\ JSON_parse text
       = Some (JObj [("inputText", JStr (question event));
                     ("enableTrace", JBool true);
                     ("endSession",
                      JBool match endSession event with
                            | Boolean true => true
                            | Text s => String.eqb s "true"
                            | _ => false
                            end)]).
Proof.
  intros Hq. eexists. eexists. split; [apply lambdaHandler_issues|].
  split; [reflexivity|]. now apply parse_request.
Qed.

End HandlerRoundTrip.

(** ** The chat component and the route *)
Section CallerFacts.
Import Js Index.
Variable engineMessage : engineError -> string.

(** The message the component shows for the user. *)
Local Abbreviation userMessage st :=
  {| Chat.role := "user"; Chat.content := Some (JStr (Chat.input st)) |}.

(** The message the component shows for the assistant. *)
Local Abbreviation assistantMessage c :=
  {| Chat.role := "assistant"; Chat.content := c |}.

(** X12.  Whatever the handler returns and the browser does, [onSubmit]
    ends with the loading flag off and the session and the input as they
    were; it shows the message of the user and after it at most one message
    of the assistant; and the store is left as it was or given that message
    of the assistant, never the message of the user. *)
Theorem onSubmit_outcome
    (lambdaHandler : LambdaEvent -> World -> LambdaResponse * World)
    (st : Chat.State) (w : World) (b : Chat.Browser) :
  let '(st', _, b') := Chat.onSubmit engineMessage lambdaHandler st w b in
  Chat.isLoading st' = false
  /\ Chat.sessionId st' = Chat.sessionId st
  /\ Chat.input st' = Chat.input st
  /\ ((Chat.messages st' = (Chat.messages st ++ [userMessage st])%list
       /\ Chat.store b' = Chat.store b)
      \/ exists c,
           Chat.messages st'
           = (Chat.messages st ++ [userMessage st; assistantMessage c])%list
           /\ (Chat.store b' = Chat.store b
               \/ Chat.store b' = (Chat.store b ++ [assistantMessage c])%list)).
Proof.
  unfold Chat.onSubmit, Chat.submitTry.
  destruct (lambdaHandler _ w) as [r w1].
  destruct (negb (statusCode r =? 200)%nat); cbn [snd].
  { repeat (split; [reflexivity|]). left. split; reflexivity. }
  match goal with |- context [bind ?m ?k] => destruct (bind m k) as [c|e] end; cbn [snd].
  2:{ repeat (split; [reflexivity|]). left. split; reflexivity. }
  unfold Chat.openDatabase, Chat.addMessageToHistory.
  destruct (Chat.openError b); cbn [snd].
  { repeat (split; [reflexivity|]). right. exists c. cbn.
    rewrite <- app_assoc. split; [reflexivity | now left]. }
  destruct (Chat.addError b); cbn [snd].
  - repeat (split; [reflexivity|]). right. exists c. cbn.
    rewrite <- app_assoc. split; [reflexivity | now left].
  - repeat (split; [reflexivity|]). right. exists c. cbn.
    rewrite <- app_assoc. split; [reflexivity | now right].
Qed.

(** X13.  When the handler returns a status other than 200, [onSubmit]
    shows the message of the user and nothing else, and stores nothing. *)
Theorem onSubmit_after_failure
    (lambdaHandler : LambdaEvent -> World -> LambdaResponse * World)
    (st : Chat.State) (w : World) (b : Chat.Browser) :
  statusCode
    (fst (lambdaHandler
            (Build_LambdaEvent (Chat.sessionId st) (Chat.input st) (Boolean false)) w))
  <> 200 ->
  let '(st', _, b') := Chat.onSubmit engineMessage lambdaHandler st w b in
  Chat.messages st' = (Chat.messages st ++ [userMessage st])%list
  /\ Chat.isLoading st' = false
  /\ b' = b.
Proof.
  unfold Chat.onSubmit, Chat.submitTry. cbn [Chat.setIsLoading Chat.setMessages
    Chat.sessionId Chat.input].
  destruct (lambdaHandler _ w) as [r w1]. cbn [fst]. intros H.
  apply Nat.eqb_neq in H. rewrite H. cbn [negb snd].
  repeat split; reflexivity.
Qed.

(** X14.  From the service to the chat: when the service answers with a
    response that [decodeResponse] decodes to a trace and an answer that
    hold no surrogate code unit, and the browser stores without error,
    [onSubmit] with the handler of index.ts shows the question and then the
    answer, and stores the answer alone, so that the history loaded
    afterwards ends with the answer and not with the question. *)
Theorem onSubmit_shows_the_answer (st : Chat.State) (w : World) (b : Chat.Browser)
    (response : Response) (trace answer : string) :
  (forall call, network w call = Return response) ->
  decodeResponse engineMessage response = Return (trace, answer) ->
  noSurrogate trace = true ->
  noSurrogate answer = true ->
  Chat.openError b = None ->
  Chat.addError b = None ->
  Chat.getAllError b = None ->
  let '(st', _, b') :=
    Chat.onSubmit engineMessage (lambdaHandler engineMessage) st w b in
  Chat.messages st'
  = (Chat.messages st ++ [userMessage st; assistantMessage (Some (JStr answer))])%list
  /\ Chat.store b' = (Chat.store b ++ [assistantMessage (Some (JStr answer))])%list
  /\ Chat.messages (Chat.loadHistory st' b')
     = (Chat.store b ++ [assistantMessage (Some (JStr answer))])%list.
Proof.
  intros Hn Hd Ht Ha Ho Hadd Hg.
  unfold Chat.onSubmit, Chat.submitTry.
  rewrite lambdaHandler_unfold, Hn. cbn [bind]. rewrite Hd.
  cbn [statusCode Nat.eqb negb responseBody].
  unfold parseJSON. rewrite (parse_two_strings "response" trace "trace_data" answer eq_refl Ht eq_refl Ha).
  cbn [bind getProperty lookupMember String.eqb Ascii.eqb Bool.eqb].
  change (lookupMember [("response", JStr trace); ("trace_data", JStr answer)] "trace_data")
    with (Some (JStr answer)).
  assert (Eo : Chat.openDatabase b = Return Chat.ChatHistory)
    by (unfold Chat.openDatabase; now rewrite Ho).
  assert (Ea : forall m,
             Chat.addMessageToHistory Chat.ChatHistory m b
             = (Return tt,
                {| Chat.store := (Chat.store b ++ [m])%list;
                   Chat.openError := None; Chat.addError := None;
                   Chat.getAllError := None |}))
    by (intros m; unfold Chat.addMessageToHistory; now rewrite Hadd, Ho, Hg).
  rewrite Eo, Ea. cbn [snd].
  split; [cbn; now rewrite <- app_assoc|]. split; [reflexivity|]. reflexivity.
Qed.

(** X15.  The route with the handler of index.ts: a request whose body
    cannot be read gets status 500 with the message under "error" and no
    call is issued; a request that is read gets the status of the handler,
    200 with the trace and the answer or 500 with the message of the
    error, for texts that hold no surrogate code unit. *)
Theorem POST_outcome (req : Route.NextRequest) (w : World) :
  (forall message,
     Route.jsonBody req = Throw (ErrorObj message) ->
     Route.POST engineMessage (lambdaHandler engineMessage) req w
     = ({| Route.status := 500; Route.payload := JObj [("error", JStr message)] |}, w))
  /\ (forall event,
        Route.jsonBody req = Return event ->
        exists call : SigV4Call,
          issued (snd (Route.POST engineMessage (lambdaHandler engineMessage) req w))
          = (issued w ++ [call])%list
          /\ (forall response trace answer,
                network w call = Return response ->
                decodeResponse engineMessage response = Return (trace, answer) ->
                noSurrogate trace = true ->
                noSurrogate answer = true ->
                fst (Route.POST engineMessage (lambdaHandler engineMessage) req w)
                = {| Route.status := 200;
                     Route.payload :=
                       JObj [("response", JStr trace); ("trace_data", JStr answer)] |})
          /\ (forall error,
                (response <- network w call ;; decodeResponse engineMessage response)
                = Throw error ->
                noSurrogate (errorMessageOf error) = true ->
                fst (Route.POST engineMessage (lambdaHandler engineMessage) req w)
                = {| Route.status := 500;
                     Route.payload := JObj [("error", JStr (errorMessageOf error))] |})).
Proof.
  split.
  - intros message H. unfold Route.POST. now rewrite H.
  - intros event H. unfold Route.POST. rewrite H, lambdaHandler_unfold.
    eexists. split; [|split].
    + match goal with |- context [parseJSON _ ?t] => destruct (parseJSON engineMessage t) end;
        reflexivity.
    + intros response trace answer H1 H2 Ht Ha. rewrite H1. cbn [bind]. rewrite H2.
      cbn [responseBody statusCode]. unfold parseJSON.
      now rewrite (parse_two_strings "response" trace "trace_data" answer eq_refl Ht eq_refl Ha).
    + intros error He Hm. rewrite He. cbn [responseBody statusCode]. unfold parseJSON.
      now rewrite (parse_one_string "error" _ eq_refl Hm).
Qed.

End CallerFacts.

(** ** The further properties at given inputs *)
Section MoreExamples.
Import Js.

Lemma mjs_answer_of_last_payload_witness :
  LambdaMjs.decodeResponse
    (bodyResponse (dq "{'bytes':'SGk='}:message-type{'bytes':'SGVsbG8='}:message-typeend"))
  = Return "Hello".
Proof.
  refine (proj1 (mjs_answer_of_last_payload
                   (dq "{'bytes':'SGk='}:message-type{'bytes':'SGVsbG8='}:message-typeend"))
            [dq "{'bytes':'SGk='}"] (dq "{'bytes':'SGVsbG8='}") ["end"]
            eq_refl eq_refl _ _).
  - constructor; [reflexivity | constructor].
  - constructor; [|constructor]. intros _. exists "Hi". reflexivity.
Defined.

Lemma mjs_raises_on_undecodable_part_witness :
  LambdaMjs.decodeResponse
    (bodyResponse (dq "...bytes...:message-type{'bytes':'SGVsbG8='}"))
  = Throw invalidCharacter.
Proof.
  refine (proj2 (mjs_raises_on_undecodable_part
                   (dq "...bytes...:message-type{'bytes':'SGVsbG8='}") "...bytes..."
                   _ eq_refl) _).
  - left. reflexivity.
  - vm_compute. lia.
Defined.

(** A run in which the value thrown that is no [Error] is [null] when it
    shows as "null", and a value with no message otherwise. *)
Local Abbreviation nullOrPlain :=
  (fun shown : string =>
     if String.eqb shown "null"
     then Throw (ErrorObj (v8Message (PropertyOfNull "message")))
     else Return (@None string)).

Local Abbreviation greeting :=
  {| sessionId := "s1"; question := "Hi"; endSession := Text "false" |}.

Lemma mjs_envelope_of_outcome_witness :
  fst (LambdaMjs.lambdaHandler nullOrPlain greeting
         (answering (Return (bodyResponse (dq "{'bytes':'SGVsbG8='}")))))
  = Return {| statusCode := 200;
              responseBody := stringifyObject [("response", stringifyString "Hello")] |}
  /\ fst (LambdaMjs.lambdaHandler nullOrPlain greeting
            (answering (Throw (ErrorObj "socket hang up"))))
     = Return {| statusCode := 500;
                 responseBody :=
                   stringifyObject [("error", stringifyString "socket hang up")] |}
  /\ fst (LambdaMjs.lambdaHandler nullOrPlain greeting
            (answering (Return (bodyResponse "bytes"))))
     = Return {| statusCode := 500;
                 responseBody :=
                   stringifyObject
                     [("error",
                       stringifyString
                         "Invalid character: the string to be decoded is not correctly encoded.")] |}
  /\ fst (LambdaMjs.lambdaHandler nullOrPlain greeting
            (answering (Throw (NonError "null"))))
     = Throw (ErrorObj "Cannot read properties of null (reading 'message')")
  /\ fst (LambdaMjs.lambdaHandler nullOrPlain greeting
            (answering (Throw (NonError "timeout"))))
     = Return {| statusCode := 500; responseBody := "{}" |}.
Proof.
  split; [|split; [|split; [|split]]].
  - destruct (mjs_envelope_of_outcome nullOrPlain greeting
                (answering (Return (bodyResponse (dq "{'bytes':'SGVsbG8='}")))))
      as [call [_ [H _]]].
    exact (H _ _ eq_refl eq_refl).
  - destruct (mjs_envelope_of_outcome nullOrPlain greeting
                (answering (Throw (ErrorObj "socket hang up"))))
      as [call [_ [_ H]]].
    exact (proj1 (H _ (or_introl eq_refl)) _ eq_refl).
  - destruct (mjs_envelope_of_outcome nullOrPlain greeting
                (answering (Return (bodyResponse "bytes"))))
      as [call [_ [_ H]]].
    exact (proj1 (H _ (or_intror (ex_intro _ _ (conj eq_refl eq_refl)))) _ eq_refl).
  - destruct (mjs_envelope_of_outcome nullOrPlain greeting
                (answering (Throw (NonError "null"))))
      as [call [_ [_ H]]].
    exact (proj1 (proj2 (H _ (or_introl eq_refl))) _ _ eq_refl eq_refl).
  - destruct (mjs_envelope_of_outcome nullOrPlain greeting
                (answering (Throw (NonError "timeout"))))
      as [call [_ [_ H]]].
    exact (proj1 (proj2 (proj2 (H _ (or_introl eq_refl)))) _ eq_refl eq_refl).
Defined.

Lemma decoders_agree_witness : base64Text "SGVsbG8=" = "Hello".
Proof.
  refine (proj2 (decoders_agree "SGVsbG8=" "Hello" eq_refl) _).
  repeat constructor.
Defined.

Lemma envelope_parses_back_witness :
  exists trace,
    JSON_parse
      (responseBody
         (fst (Index.lambdaHandler v8Message
                 {| sessionId := "s1"; question := "Hi"; endSession := Boolean false |}
                 (answering
                    (Return (bodyResponse (dq "x:message-type{'bytes':'SGVsbG8='}")))))))
    = Some (JObj [("response", JStr trace); ("trace_data", JStr "Hello")]).
Proof.
  destruct (envelope_parses_back v8Message
              {| sessionId := "s1"; question := "Hi"; endSession := Boolean false |}
              (answering
                 (Return (bodyResponse (dq "x:message-type{'bytes':'SGVsbG8='}")))))
    as [call [_ [H _]]].
  eexists. exact (H _ _ "Hello" eq_refl eq_refl eq_refl eq_refl).
Defined.

Lemma request_parses_back_witness :
  exists text,
    map body
      (issued (snd (Index.lambdaHandler v8Message
                      {| sessionId := "s1"; question := dq "say 'hi'";
                         endSession := Text "true" |}
                      (answering (Return (bodyResponse EmptyString))))))
    = [Some text]
    /\ JSON_parse text
       = Some (JObj [("inputText", JStr (dq "say 'hi'"));
                     ("enableTrace", JBool true);
                     ("endSession", JBool true)]).
Proof.
  destruct (request_parses_back v8Message
              {| sessionId := "s1"; question := dq "say 'hi'"; endSession := Text "true" |}
              (answering (Return (bodyResponse EmptyString))) eq_refl)
    as [call [text [Hi [Hb Hp]]]].
  exists text. split; [|exact Hp]. rewrite Hi. cbn [answering issued app map].
  now rewrite Hb.
Defined.

Lemma onSubmit_after_failure_witness :
  Chat.messages
    (fst (fst (Chat.onSubmit v8Message (Index.lambdaHandler v8Message)
                 {| Chat.sessionId := "s1"; Chat.isLoading := false;
                    Chat.messages := []; Chat.input := "Hi" |}
                 (answering (Throw (ErrorObj "socket hang up")))
                 {| Chat.store := []; Chat.openError := None;
                    Chat.addError := None; Chat.getAllError := None |})))
  = [{| Chat.role := "user"; Chat.content := Some (JStr "Hi") |}].
Proof.
  pose proof (onSubmit_after_failure v8Message (Index.lambdaHandler v8Message)
                {| Chat.sessionId := "s1"; Chat.isLoading := false;
                   Chat.messages := []; Chat.input := "Hi" |}
                (answering (Throw (ErrorObj "socket hang up")))
                {| Chat.store := []; Chat.openError := None;
                   Chat.addError := None; Chat.getAllError := None |}) as H.
  destruct (Chat.onSubmit _ _ _ _ _) as [[st' w'] b'].
  apply H. cbn. discriminate.
Defined.

Lemma onSubmit_shows_the_answer_witness :
  Chat.messages
    (fst (fst (Chat.onSubmit v8Message (Index.lambdaHandler v8Message)
                 {| Chat.sessionId := "s1"; Chat.isLoading := false;
                    Chat.messages := []; Chat.input := "Hi" |}
                 (answering
                    (Return (bodyResponse (dq "x:message-type{'bytes':'SGVsbG8='}"))))
                 {| Chat.store := []; Chat.openError := None;
                    Chat.addError := None; Chat.getAllError := None |})))
  = [{| Chat.role := "user"; Chat.content := Some (JStr "Hi") |};
     {| Chat.role := "assistant"; Chat.content := Some (JStr "Hello") |}].
Proof.
  pose proof (onSubmit_shows_the_answer v8Message
                {| Chat.sessionId := "s1"; Chat.isLoading := false;
                   Chat.messages := []; Chat.input := "Hi" |}
                (answering
                   (Return (bodyResponse (dq "x:message-type{'bytes':'SGVsbG8='}"))))
                {| Chat.store := []; Chat.openError := None;
                   Chat.addError := None; Chat.getAllError := None |}
                (bodyResponse (dq "x:message-type{'bytes':'SGVsbG8='}")) _ "Hello"
                (fun _ => eq_refl) eq_refl eq_refl eq_refl eq_refl eq_refl eq_refl) as H.
  destruct (Chat.onSubmit _ _ _ _ _) as [[st' w'] b'].
  exact (proj1 H).
Defined.

Lemma POST_outcome_witness :
  Route.POST v8Message (Index.lambdaHandler v8Message)
    {| Route.jsonBody := Throw (ErrorObj "Unexpected end of JSON input") |}
    (answering (Return (bodyResponse EmptyString)))
  = ({| Route.status := 500;
        Route.payload := JObj [("error", JStr "Unexpected end of JSON input")] |},
     answering (Return (bodyResponse EmptyString)))
  /\ fst (Route.POST v8Message (Index.lambdaHandler v8Message)
            {| Route.jsonBody :=
                 Return {| sessionId := "s1"; question := "Hi";
                           endSession := Boolean false |} |}
            (answering (Throw (ErrorObj "socket hang up"))))
     = {| Route.status := 500;
          Route.payload := JObj [("error", JStr "socket hang up")] |}.
Proof.
  split.
  - exact (proj1 (POST_outcome v8Message
                    {| Route.jsonBody := Throw (ErrorObj "Unexpected end of JSON input") |}
                    (answering (Return (bodyResponse EmptyString))))
             _ eq_refl).
  - destruct (proj2 (POST_outcome v8Message
                       {| Route.jsonBody :=
                            Return {| sessionId := "s1"; question := "Hi";
                                      endSession := Boolean false |} |}
                       (answering (Throw (ErrorObj "socket hang up"))))
                _ eq_refl) as [call [_ [_ H]]].
    exact (H (ErrorObj "socket hang up") eq_refl eq_refl).
Defined.

End MoreExamples.

(** ** The history of the chat component that calls the route *)
Section HistoryFacts.
Import Js.

(** The decimal text of a number tells the number. *)
Lemma numberToString_injective (a b : nat) :
  numberToString a = numberToString b -> a = b.
Proof.
  unfold numberToString. intros H.
  assert (E : Some (Nat.to_uint a) = Some (Nat.to_uint b))
    by (rewrite <- !NilEmpty.usu; now rewrite H).
  injection E as E.
  rewrite <- (DecimalNat.Unsigned.of_to a), <- (DecimalNat.Unsigned.of_to b).
  now rewrite E.
Qed.

Lemma mappedHistory_ids (history : list ChatFetch.Message) (index : nat) :
  map ChatFetch.id (ChatFetch.mappedHistory index history)
  = map numberToString (seq index (List.length history)).
Proof.
  revert index. induction history as [|m rest IH]; intros index; [reflexivity|].
  cbn. now rewrite IH.
Qed.

Lemma mappedHistory_rest (records : list ChatFetch.Stored) (i j : nat) :
  map (fun m => (ChatFetch.role m, ChatFetch.content m))
    (ChatFetch.mappedHistory i (ChatFetch.messagesWithId j records))
  = map (fun r => (ChatFetch.storedRole r, ChatFetch.storedContent r)) records.
Proof.
  revert i j. induction records as [|r rest IH]; intros i j; [reflexivity|].
  cbn. now rewrite IH.
Qed.

Lemma messagesWithId_length (records : list ChatFetch.Stored) (j : nat) :
  List.length (ChatFetch.messagesWithId j records) = List.length records.
Proof.
  revert j. induction records as [|r rest IH]; intros j; [reflexivity|].
  cbn. now rewrite IH.
Qed.

(** X16.  The history loaded without error shows the stored messages in
    their order, with their roles and contents, and gives each its
    position as [id], whatever [id] it was stored with: the ids shown are
    0, 1, 2 and so on, and no two are the same. *)
Theorem loaded_history_ids (messages : list ChatFetch.Message) (b : ChatFetch.Browser) :
  ChatFetch.openError b = None ->
  ChatFetch.getAllError b = None ->
  map ChatFetch.id (ChatFetch.loadHistory messages b)
  = map numberToString (seq 0 (List.length (ChatFetch.store b)))
  /\ NoDup (map ChatFetch.id (ChatFetch.loadHistory messages b))
  /\ map (fun m => (ChatFetch.role m, ChatFetch.content m))
       (ChatFetch.loadHistory messages b)
     = map (fun r => (ChatFetch.storedRole r, ChatFetch.storedContent r))
         (ChatFetch.store b).
Proof.
  intros Ho Hg. unfold ChatFetch.loadHistory, ChatFetch.openDatabase, ChatFetch.getHistory.
  rewrite Ho. cbn [bind]. rewrite Hg.
  rewrite mappedHistory_ids, messagesWithId_length, mappedHistory_rest.
  split; [reflexivity|]. split; [|reflexivity].
  apply NoDup_map_NoDup_ForallPairs; [|apply seq_NoDup].
  intros x y _ _. apply numberToString_injective.
Qed.

(** X17.  [getHistory] gives a stored message the position as [id] only
    when it was stored without one: a message added by
    [addMessageToHistory] comes back with the [id] it was added with. *)
Theorem stored_id_comes_back (b : ChatFetch.Browser) (message : ChatFetch.Message) :
  ChatFetch.addError b = None ->
  ChatFetch.getAllError b = None ->
  exists history,
    ChatFetch.getHistory ChatFetch.ChatHistory
      (snd (ChatFetch.addMessageToHistory ChatFetch.ChatHistory message b))
    = Return (history ++ [message])%list
    /\ ChatFetch.getHistory ChatFetch.ChatHistory b = Return history.
Proof.
  intros Ha Hg. unfold ChatFetch.addMessageToHistory, ChatFetch.getHistory.
  rewrite Ha, Hg. cbn [snd ChatFetch.getAllError ChatFetch.store].
  eexists. split; [|reflexivity]. f_equal.
  generalize 0 as j. induction (ChatFetch.store b) as [|r rest IH]; intros j.
  - destruct message. reflexivity.
  - cbn. now rewrite IH.
Qed.

End HistoryFacts.

Section HistoryExamples.
Import Js.

Lemma loaded_history_ids_witness :
  map ChatFetch.id
    (ChatFetch.loadHistory []
       {| ChatFetch.store :=
            [{| ChatFetch.storedId := Some "1730000000000";
                ChatFetch.storedRole := "assistant";
                ChatFetch.storedContent := Some (JStr "Hello") |};
             {| ChatFetch.storedId := Some "1730000000000";
                ChatFetch.storedRole := "assistant";
                ChatFetch.storedContent := Some (JStr "Hi") |}];
          ChatFetch.openError := None; ChatFetch.addError := None;
          ChatFetch.getAllError := None |})
  = ["0"; "1"].
Proof.
  exact (proj1 (loaded_history_ids []
                  {| ChatFetch.store :=
                       [{| ChatFetch.storedId := Some "1730000000000";
                           ChatFetch.storedRole := "assistant";
                           ChatFetch.storedContent := Some (JStr "Hello") |};
                        {| ChatFetch.storedId := Some "1730000000000";
                           ChatFetch.storedRole := "assistant";
                           ChatFetch.storedContent := Some (JStr "Hi") |}];
                     ChatFetch.openError := None; ChatFetch.addError := None;
                     ChatFetch.getAllError := None |} eq_refl eq_refl)).
Defined.

Lemma stored_id_comes_back_witness :
  exists history,
    ChatFetch.getHistory ChatFetch.ChatHistory
      (snd (ChatFetch.addMessageToHistory ChatFetch.ChatHistory
              {| ChatFetch.id := "1730000000000"; ChatFetch.role := "assistant";
                 ChatFetch.content := Some (JStr "Hello") |}
              {| ChatFetch.store := []; ChatFetch.openError := None;
                 ChatFetch.addError := None; ChatFetch.getAllError := None |}))
    = Return (history
                ++ [{| ChatFetch.id := "1730000000000"; ChatFetch.role := "assistant";
                       ChatFetch.content := Some (JStr "Hello") |}])%list
    /\ ChatFetch.getHistory ChatFetch.ChatHistory
         {| ChatFetch.store := []; ChatFetch.openError := None;
            ChatFetch.addError := None; ChatFetch.getAllError := None |}
       = Return history.
Proof.
  exact (stored_id_comes_back
           {| ChatFetch.store := []; ChatFetch.openError := None;
              ChatFetch.addError := None; ChatFetch.getAllError := None |}
           {| ChatFetch.id := "1730000000000"; ChatFetch.role := "assistant";
              ChatFetch.content := Some (JStr "Hello") |} eq_refl eq_refl).
Defined.

End HistoryExamples.
